(** * ai-tool-adapter: the schema translation layer

    A shallow embedding of [src/types.ts], the four adapters under
    [src/adapters/] and the public API of [src/index.ts], followed by the
    properties of the specification that were checked against it. *)

From Stdlib Require Import String Ascii List ZArith Bool Lia.
Import ListNotations.
Local Open Scope string_scope.
Local Open Scope list_scope.
Set Warnings "-register-all".

(* ================================================================= *)
(** ** JavaScript values *)

(** The values that flow through the adapters.  Numbers are only ever
    copied from a parameter's [default] into the output, never computed
    on, so integer literals stand for them.  An object is the list of its
    own enumerable string-keyed properties in [Object.keys] order. *)
Inductive Json : Type :=
| JNull
| JBool (b : bool)
| JNum (n : Z)
| JStr (s : string)
| JArr (elements : list Json)
| JObj (fields : list (string * Json)).

Definition Obj : Type := list (string * Json).

(** [obj[key]] restricted to own properties. *)
Fixpoint obj_get (key : string) (o : Obj) : option Json :=
  match o with
  | [] => None
  | (k, v) :: rest => if String.eqb k key then Some v else obj_get key rest
  end.

(** Own-property view of [key in obj]. *)
Definition obj_has (key : string) (o : Obj) : bool :=
  match obj_get key o with Some _ => true | None => false end.

(** Define-or-overwrite of an own data property: an existing key keeps
    its position, a new key goes last. *)
Fixpoint obj_put (key : string) (v : Json) (o : Obj) : Obj :=
  match o with
  | [] => [(key, v)]
  | (k, w) :: rest =>
      if String.eqb k key then (k, v) :: rest else (k, w) :: obj_put key v rest
  end.

(** [obj[key] = v] on an object created by the literal [{}] and only
    ever written through such assignments.  Its prototype is
    [Object.prototype], whose one accessor property is [__proto__]: an
    assignment to that key runs the inherited setter, which changes the
    prototype of [obj] (or does nothing) and defines no own property.
    Every other key defines or overwrites an own data property. *)
Definition obj_set (key : string) (v : Json) (o : Obj) : Obj :=
  if String.eqb key "__proto__" then o else obj_put key v o.

(** [Array.prototype.push] of one element. *)
Definition push {A : Type} (l : list A) (x : A) : list A := l ++ [x].

(** [String.prototype.toUpperCase] on ASCII text: the letters [a]-[z]
    move to [A]-[Z], every other ASCII character is unchanged.  The
    adapters apply it to the five [ParamType] literals only. *)
Definition upper_ascii (c : ascii) : ascii :=
  let n := nat_of_ascii c in
  if andb (Nat.leb 97 n) (Nat.leb n 122) then ascii_of_nat (n - 32) else c.

Fixpoint toUpperCase (s : string) : string :=
  match s with
  | EmptyString => EmptyString
  | String c rest => String (upper_ascii c) (toUpperCase rest)
  end.

(** [Array.prototype.join]. *)
Definition join (sep : string) (l : list string) : string := String.concat sep l.

(* ================================================================= *)
(** ** [src/types.ts] *)

Module Types.

(** [type ParamType = 'string' | 'number' | 'boolean' | 'array' | 'object'] *)
Inductive ParamType : Type := TString | TNumber | TBoolean | TArray | TObject.

(** The string literal a [ParamType] value is at run time. *)
Definition ParamType_str (t : ParamType) : string :=
  match t with
  | TString => "string"
  | TNumber => "number"
  | TBoolean => "boolean"
  | TArray => "array"
  | TObject => "object"
  end.

(** [interface ToolParam].  An optional field that is absent (or
    [undefined]) is [None].  [items] is the [type] of the [{ type }]
    object; [properties] lists the entries of the nested record. *)
Inductive ToolParam : Type := mkToolParam {
  type : ParamType;
  description : option string;
  required : option bool;
  default : option Json;
  enum : option (list string);
  items : option ParamType;
  properties : option (list (string * ToolParam))
}.

(** [interface UniversalTool].  [params] is the record as
    [Object.entries] enumerates it: its own keys, each once, with its
    value. *)
Record UniversalTool : Type := mkUniversalTool {
  name : string;
  tool_description : string;
  params : list (string * ToolParam)
}.

End Types.
Import Types.

(** Truthiness of an optional string: [undefined] and [""] are falsy. *)
Definition truthy_string (s : option string) : bool :=
  match s with
  | Some EmptyString => false
  | Some _ => true
  | None => false
  end.

(** Truthiness of an optional boolean. *)
Definition truthy_bool (b : option bool) : bool :=
  match b with Some true => true | _ => false end.

(** Truthiness of an optional object or array: any object is truthy. *)
Definition truthy_ref {A : Type} (x : option A) : bool :=
  match x with Some _ => true | None => false end.

(** [x !== undefined]. *)
Definition defined {A : Type} (x : option A) : bool :=
  match x with Some _ => true | None => false end.

(** [param.type === 'array'] *)
Definition is_array (t : ParamType) : bool :=
  match t with TArray => true | _ => false end.

(** The value read from an optional field once a guard has shown it to
    be there; the fall-back is never reached under the guard. *)
Definition str_of (s : option string) : Json :=
  match s with Some d => JStr d | None => JNull end.

Definition enum_of (e : option (list string)) : Json :=
  match e with Some vs => JArr (map JStr vs) | None => JNull end.

Definition default_of (d : option Json) : Json :=
  match d with Some v => v | None => JNull end.

(* ================================================================= *)
(** ** The adapters *)

(** The accumulator of an adapter's loop: the [properties] record and
    the [required] array. *)
Definition Acc : Type := (Obj * list string)%type.

Module OpenAI.

Definition convertParam (param : ToolParam) : Json :=
  let property := [("type", JStr (ParamType_str (type param)))] in
  let property :=
    if truthy_string (description param)
    then obj_set "description" (str_of (description param)) property
    else property in
  let property :=
    if truthy_ref (enum param)
    then obj_set "enum" (enum_of (enum param)) property
    else property in
  let property :=
    if defined (default param)
    then obj_set "default" (default_of (default param)) property
    else property in
  let property :=
    match is_array (type param), items param with
    | true, Some it =>
        obj_set "items" (JObj [("type", JStr (ParamType_str it))]) property
    | _, _ => property
    end in
  JObj property.

Definition loop_body (acc : Acc) (entry : string * ToolParam) : Acc :=
  let '(properties, required) := acc in
  let '(paramName, paramDef) := entry in
  let properties := obj_set paramName (convertParam paramDef) properties in
  let required :=
    if truthy_bool (Types.required paramDef)
    then push required paramName
    else required in
  (properties, required).

Definition openaiAdapter (tool : UniversalTool) : Json :=
  let '(properties, required) := fold_left loop_body (params tool) ([], []) in
  JObj [("type", JStr "function");
        ("function",
         JObj [("name", JStr (name tool));
               ("description", JStr (tool_description tool));
               ("parameters",
                JObj [("type", JStr "object");
                      ("properties", JObj properties);
                      ("required", JArr (map JStr required))])])].

End OpenAI.

Module Anthropic.

Definition convertParam (param : ToolParam) : Json :=
  let property := [("type", JStr (ParamType_str (type param)))] in
  let property :=
    if truthy_string (description param)
    then obj_set "description" (str_of (description param)) property
    else property in
  let property :=
    if truthy_ref (enum param)
    then obj_set "enum" (enum_of (enum param)) property
    else property in
  let property :=
    if defined (default param)
    then obj_set "default" (default_of (default param)) property
    else property in
  let property :=
    match is_array (type param), items param with
    | true, Some it =>
        obj_set "items" (JObj [("type", JStr (ParamType_str it))]) property
    | _, _ => property
    end in
  JObj property.

Definition loop_body (acc : Acc) (entry : string * ToolParam) : Acc :=
  let '(properties, required) := acc in
  let '(paramName, paramDef) := entry in
  let properties := obj_set paramName (convertParam paramDef) properties in
  let required :=
    if truthy_bool (Types.required paramDef)
    then push required paramName
    else required in
  (properties, required).

Definition anthropicAdapter (tool : UniversalTool) : Json :=
  let '(properties, required) := fold_left loop_body (params tool) ([], []) in
  JObj [("name", JStr (name tool));
        ("description", JStr (tool_description tool));
        ("input_schema",
         JObj [("type", JStr "object");
               ("properties", JObj properties);
               ("required", JArr (map JStr required))])].

End Anthropic.

Module Gemini.

Definition toGeminiType (type : string) : string := toUpperCase type.

Definition convertParam (param : ToolParam) : Json :=
  let property := [("type", JStr (toGeminiType (ParamType_str (type param))))] in
  let property :=
    if truthy_string (description param)
    then obj_set "description" (str_of (description param)) property
    else property in
  let property :=
    if truthy_ref (enum param)
    then obj_set "enum" (enum_of (enum param)) property
    else property in
  let property :=
    if defined (default param)
    then obj_set "default" (default_of (default param)) property
    else property in
  let property :=
    match is_array (type param), items param with
    | true, Some it =>
        obj_set "items"
          (JObj [("type", JStr (toGeminiType (ParamType_str it)))]) property
    | _, _ => property
    end in
  JObj property.

Definition loop_body (acc : Acc) (entry : string * ToolParam) : Acc :=
  let '(properties, required) := acc in
  let '(paramName, paramDef) := entry in
  let properties := obj_set paramName (convertParam paramDef) properties in
  let required :=
    if truthy_bool (Types.required paramDef)
    then push required paramName
    else required in
  (properties, required).

Definition geminiAdapter (tool : UniversalTool) : Json :=
  let '(properties, required) := fold_left loop_body (params tool) ([], []) in
  JObj [("name", JStr (name tool));
        ("description", JStr (tool_description tool));
        ("parameters",
         JObj [("type", JStr "OBJECT");
               ("properties", JObj properties);
               ("required", JArr (map JStr required))])].

End Gemini.

Module Mistral.

Definition convertParam (param : ToolParam) : Json :=
  let property := [("type", JStr (ParamType_str (type param)))] in
  let property :=
    if truthy_string (description param)
    then obj_set "description" (str_of (description param)) property
    else property in
  let property :=
    if truthy_ref (enum param)
    then obj_set "enum" (enum_of (enum param)) property
    else property in
  let property :=
    if defined (default param)
    then obj_set "default" (default_of (default param)) property
    else property in
  let property :=
    match is_array (type param), items param with
    | true, Some it =>
        obj_set "items" (JObj [("type", JStr (ParamType_str it))]) property
    | _, _ => property
    end in
  JObj property.

Definition loop_body (acc : Acc) (entry : string * ToolParam) : Acc :=
  let '(properties, required) := acc in
  let '(paramName, paramDef) := entry in
  let properties := obj_set paramName (convertParam paramDef) properties in
  let required :=
    if truthy_bool (Types.required paramDef)
    then push required paramName
    else required in
  (properties, required).

Definition mistralAdapter (tool : UniversalTool) : Json :=
  let '(properties, required) := fold_left loop_body (params tool) ([], []) in
  JObj [("type", JStr "function");
        ("function",
         JObj [("name", JStr (name tool));
               ("description", JStr (tool_description tool));
               ("parameters",
                JObj [("type", JStr "object");
                      ("properties", JObj properties);
                      ("required", JArr (map JStr required))])])].

End Mistral.

(* ================================================================= *)
(** ** [src/index.ts] *)

(** What a call can hand back through the return type [unknown]: a
    freshly built schema, or the very tool object it was given. *)
Inductive Value : Type :=
| VJson (j : Json)
| VTool (tool : UniversalTool).

(** Exceptions: [new Error(message)] thrown by [adapt], and the
    [TypeError] the engine raises on an impossible call. *)
Inductive JsError : Type :=
| Error (message : string)
| TypeError.

(** Observable steps of the dispatcher: a read of [adapters[provider]]
    and an invocation of the function that read produced. *)
Inductive Event : Type :=
| Lookup (provider : string)
| Call.

(** Computations that log their steps and may throw. *)
Definition Eff (A : Type) : Type := (list Event * (JsError + A))%type.

Definition ret {A : Type} (a : A) : Eff A := ([], inr a).

Definition throw {A : Type} (e : JsError) : Eff A := ([], inl e).

Definition tell (ev : Event) : Eff unit := ([ev], inr tt).

Definition bind {A B : Type} (m : Eff A) (k : A -> Eff B) : Eff B :=
  match m with
  | (log, inl e) => (log, inl e)
  | (log, inr a) => let '(log', r) := k a in (log ++ log', r)
  end.

Notation "x <- m ;; k" := (bind m (fun x => k))
  (at level 61, m at next level, right associativity).
Notation "m ;;; k" := (bind m (fun _ => k))
  (at level 61, right associativity).

(** [Array.prototype.map] with a callback that may throw: elements are
    visited left to right and the first exception ends the traversal. *)
Fixpoint array_map {A B : Type} (f : A -> Eff B) (l : list A) : Eff (list B) :=
  match l with
  | [] => ret []
  | x :: rest =>
      y <- f x ;;
      ys <- array_map f rest ;;
      ret (y :: ys)
  end.

(** A property value found on the registry object or on its prototype:
    a function, or something that cannot be called. *)
Inductive Property : Type :=
| Callable (f : UniversalTool -> JsError + Value)
| NotCallable.

(** The own properties of the [adapters] object literal. *)
Definition adapters : list (string * (UniversalTool -> Json)) :=
  [("openai", OpenAI.openaiAdapter);
   ("anthropic", Anthropic.anthropicAdapter);
   ("gemini", Gemini.geminiAdapter);
   ("mistral", Mistral.mistralAdapter)].

(** [adapters] is an object literal, so its prototype is
    [Object.prototype].  These are the properties it inherits, each with
    what it does when called as a plain function ([this] undefined) on a
    tool object: [Object(tool)] is [tool] itself, [toString] names the
    undefined receiver, the other methods fail on the undefined
    receiver, and the [__proto__] getter yields the prototype object,
    which is truthy and not callable. *)
Definition Object_prototype : list (string * Property) :=
  [("constructor", Callable (fun tool => inr (VTool tool)));
   ("toString", Callable (fun _ => inr (VJson (JStr "[object Undefined]"))));
   ("toLocaleString", Callable (fun _ => inl TypeError));
   ("valueOf", Callable (fun _ => inl TypeError));
   ("hasOwnProperty", Callable (fun _ => inl TypeError));
   ("isPrototypeOf", Callable (fun _ => inl TypeError));
   ("propertyIsEnumerable", Callable (fun _ => inl TypeError));
   ("__defineGetter__", Callable (fun _ => inl TypeError));
   ("__defineSetter__", Callable (fun _ => inl TypeError));
   ("__lookupGetter__", Callable (fun _ => inl TypeError));
   ("__lookupSetter__", Callable (fun _ => inl TypeError));
   ("__proto__", NotCallable)].

Fixpoint assoc {A : Type} (key : string) (l : list (string * A)) : option A :=
  match l with
  | [] => None
  | (k, v) :: rest => if String.eqb k key then Some v else assoc key rest
  end.

(** [adapters[provider]]: an own property first, then the prototype;
    [None] is [undefined]. *)
Definition adapters_get (provider : string) : option Property :=
  match assoc provider adapters with
  | Some adapter => Some (Callable (fun tool => inr (VJson (adapter tool))))
  | None => assoc provider Object_prototype
  end.

(** [Object.keys(adapters)] *)
Definition getProviders : list string := map fst adapters.

Definition unknown_provider_message (provider : string) : string :=
  "Unknown provider: " ++ provider ++ ". Supported providers: "
    ++ join ", " getProviders.

(** [adapter(tool)] *)
Definition call (adapter : Property) (tool : UniversalTool) : Eff Value :=
  match adapter with
  | Callable f => tell Call ;;; ([], f tool)
  | NotCallable => throw TypeError
  end.

Definition adapt (tool : UniversalTool) (provider : string) : Eff Value :=
  adapter <- (tell (Lookup provider) ;;; ret (adapters_get provider)) ;;
  match adapter with
  | None => throw (Error (unknown_provider_message provider))
  | Some f => call f tool
  end.

Definition adaptAll (tools : list UniversalTool) (provider : string)
  : Eff (list Value) :=
  array_map (fun tool => adapt tool provider) tools.

(** The steps and the outcome of a computation. *)
Definition log_of {A : Type} (m : Eff A) : list Event := fst m.
Definition outcome {A : Type} (m : Eff A) : JsError + A := snd m.

Definition is_lookup (ev : Event) : bool :=
  match ev with Lookup _ => true | Call => false end.

Definition is_call (ev : Event) : bool :=
  match ev with Call => true | Lookup _ => false end.

Definition lookups {A : Type} (m : Eff A) : nat :=
  length (filter is_lookup (log_of m)).

Definition calls {A : Type} (m : Eff A) : nat :=
  length (filter is_call (log_of m)).


(* ================================================================= *)
(** ** Reading the emitted schemas *)

(** [j[key]] for an own property of an object value. *)
Definition field (key : string) (j : Json) : option Json :=
  match j with
  | JObj o => obj_get key o
  | _ => None
  end.

Definition has_field (key : string) (j : Json) : bool :=
  match field key j with Some _ => true | None => false end.

(** [j[k1][k2]...] *)
Fixpoint path (keys : list string) (j : Json) : option Json :=
  match keys with
  | [] => Some j
  | k :: rest =>
      match field k j with
      | Some v => path rest v
      | None => None
      end
  end.

(** Where each provider's envelope keeps the parameter schema:
    [.function.parameters] for OpenAI and Mistral, [.input_schema] for
    Anthropic, [.parameters] for Gemini. *)
Definition schema_path (provider : string) : list string :=
  if String.eqb provider "anthropic" then ["input_schema"]
  else if String.eqb provider "gemini" then ["parameters"]
  else ["function"; "parameters"].

Definition output_properties (provider : string) (out : Json) : option Json :=
  path (schema_path provider ++ ["properties"]) out.

Definition output_required (provider : string) (out : Json) : option Json :=
  path (schema_path provider ++ ["required"]) out.

(** The names of the parameters an adapter's loop pushes on [required]. *)
Definition required_names (entries : list (string * ToolParam)) : list string :=
  map fst (filter (fun e => truthy_bool (required (snd e))) entries).

(** The loop shared, copy for copy, by the four adapters, over the
    [convertParam] of each. *)
Section GenericLoop.

Variable convertParam : ToolParam -> Json.

Definition generic_loop_body (acc : Acc) (entry : string * ToolParam) : Acc :=
  (obj_set (fst entry) (convertParam (snd entry)) (fst acc),
   if truthy_bool (required (snd entry))
   then push (snd acc) (fst entry)
   else snd acc).

Definition generic_loop (entries : list (string * ToolParam)) : Acc :=
  fold_left generic_loop_body entries ([], []).

End GenericLoop.

(** The [convertParam] of each provider's adapter module. *)
Definition convertParam_of (provider : string) : ToolParam -> Json :=
  if String.eqb provider "openai" then OpenAI.convertParam
  else if String.eqb provider "anthropic" then Anthropic.convertParam
  else if String.eqb provider "gemini" then Gemini.convertParam
  else Mistral.convertParam.

(** A parameter with its [properties] field dropped. *)
Definition without_properties (p : ToolParam) : ToolParam :=
  mkToolParam (type p) (description p) (required p) (default p) (enum p)
    (items p) None.

(** Two parameters that agree on every field but [properties]. *)
Definition same_but_properties (p q : ToolParam) : Prop :=
  without_properties p = without_properties q.

(** Two tools that agree on everything but the [properties] field of
    their parameters. *)
Definition differ_only_in_properties (t1 t2 : UniversalTool) : Prop :=
  name t1 = name t2 /\
  tool_description t1 = tool_description t2 /\
  Forall2 (fun e1 e2 => fst e1 = fst e2 /\ same_but_properties (snd e1) (snd e2))
    (params t1) (params t2).

(** The fail-fast contract of the batch call as the specification
    words it: exactly one lookup, no conversion, the unknown-provider
    error. *)
Definition fails_fast (tools : list UniversalTool) (provider : string) : Prop :=
  outcome (adaptAll tools provider)
    = inl (Error (unknown_provider_message provider)) /\
  lookups (adaptAll tools provider) = 1 /\
  calls (adaptAll tools provider) = 0.

(* ================================================================= *)
(** ** Sample inputs *)

Definition plain (t : ParamType) : ToolParam :=
  mkToolParam t None None None None None None.

(** [{ type: 'string', required: true }] *)
Definition location_param : ToolParam :=
  mkToolParam TString None (Some true) None None None None.

(** [{ name: 'get_weather', description: 'd',
       params: { location: { type: 'string', required: true } } }] *)
Definition weather_tool : UniversalTool :=
  mkUniversalTool "get_weather" "d" [("location", location_param)].

(** [{ name: 'ping', description: 'Check liveness', params: {} }] *)
Definition ping_tool : UniversalTool :=
  mkUniversalTool "ping" "Check liveness" [].

(** [{ type: 'array', items: { type: 'string' } }] *)
Definition string_array_param : ToolParam :=
  mkToolParam TArray None None None None (Some TString) None.

(** [{ type: 'string', items: { type: 'number' } }] *)
Definition stray_items_param : ToolParam :=
  mkToolParam TString None None None None (Some TNumber) None.

(** [{ type: 'object', properties: { street: { type: 'string' } } }] and
    the same parameter with other nested properties. *)
Definition address_param : ToolParam :=
  mkToolParam TObject (Some "Postal address") (Some true) None None None
    (Some [("street", plain TString)]).

Definition address_param' : ToolParam :=
  mkToolParam TObject (Some "Postal address") (Some true) None None None
    (Some [("city", plain TString); ("zip", plain TNumber)]).

Definition address_tool : UniversalTool :=
  mkUniversalTool "ship" "Ship a parcel" [("to", address_param)].

Definition address_tool' : UniversalTool :=
  mkUniversalTool "ship" "Ship a parcel" [("to", address_param')].

(** A tool read with [JSON.parse] from
    [{"name":"t","description":"d","params":{"__proto__":{"type":"string"}}}]:
    its [params] record has the own key [__proto__]. *)
Definition proto_tool : UniversalTool :=
  mkUniversalTool "t" "d" [("__proto__", plain TString)].

(** [{ type: 'number', default: 0 }], [{ type: 'boolean', default: false }]
    and [{ type: 'string', default: '' }] *)
Definition zero_default : ToolParam :=
  mkToolParam TNumber None None (Some (JNum 0)) None None None.
Definition false_default : ToolParam :=
  mkToolParam TBoolean None None (Some (JBool false)) None None None.
Definition empty_default : ToolParam :=
  mkToolParam TString None None (Some (JStr "")) None None None.

(** [{ type: 'string', description: 'Unit', enum: ['celsius', 'Fahrenheit'] }] *)
Definition units_param : ToolParam :=
  mkToolParam TString (Some "Unit") None None (Some ["celsius"; "Fahrenheit"])
    None None.

(* ================================================================= *)
(** ** Further observations and inputs *)

(** [Object.keys(j)] for an object value. *)
Definition keys (j : Json) : list string :=
  match j with
  | JObj o => map fst o
  | _ => []
  end.

(** Where each provider's envelope keeps [name] and [description]:
    under [.function] for OpenAI and Mistral, at the top level for
    Anthropic and Gemini. *)
Definition envelope_path (provider : string) : list string :=
  if String.eqb provider "anthropic" then []
  else if String.eqb provider "gemini" then []
  else ["function"].

(** The descriptors of the entries, in traversal order, for every name
    an assignment can define as an own key. *)
Definition declared (convertParam : ToolParam -> Json)
           (entries : list (string * ToolParam)) : Obj :=
  map (fun e => (fst e, convertParam (snd e)))
      (filter (fun e => negb (String.eqb (fst e) "__proto__")) entries).

(** Whether a property name starts with a decimal digit.  Every array
    index (["0"], ["1"], ["42"], ...) does, and array indices are the only
    string keys that [Object.entries] enumerates out of creation order:
    they come first, in ascending numeric order. *)
Definition is_digit (c : ascii) : bool :=
  andb (Nat.leb 48 (nat_of_ascii c)) (Nat.leb (nat_of_ascii c) 57).

Definition starts_with_digit (s : string) : bool :=
  match s with
  | String c _ => is_digit c
  | EmptyString => false
  end.

(** The tool whose [params] record got one more key, created last.
    [Object.entries] enumerates that key last provided it is no array
    index; the appended list is the traversal order for such names only,
    which is why the statements about [with_param] ask for
    [starts_with_digit n = false]. *)
Definition with_param (tool : UniversalTool) (n : string) (p : ToolParam)
  : UniversalTool :=
  mkUniversalTool (name tool) (tool_description tool) (params tool ++ [(n, p)]).

(** [out.<schema>.properties[n]]: the descriptor an output holds for the
    parameter name [n]. *)
Definition output_property (provider n : string) (out : Json) : option Json :=
  path (schema_path provider ++ ["properties"; n]) out.

(** [{ name: 'convert', description: 'Convert a temperature',
       params: { units: { type: 'string', description: 'Unit',
                          enum: ['celsius', 'Fahrenheit'] } } }] *)
Definition units_tool : UniversalTool :=
  mkUniversalTool "convert" "Convert a temperature" [("units", units_param)].

(** Tools read with [JSON.parse], whose [params] record has the own key
    [__proto__] next to an ordinary key holding the same parameter:
    [{"__proto__": {"type":"number","default":0},
      "step": {"type":"number","default":0}}] and
    [{"__proto__": {"type":"array","items":{"type":"string"}},
      "tags": {"type":"array","items":{"type":"string"}}}]. *)
Definition proto_default_tool : UniversalTool :=
  mkUniversalTool "count" "Count items"
    [("__proto__", zero_default); ("step", zero_default)].

Definition proto_items_tool : UniversalTool :=
  mkUniversalTool "tag" "Tag an item"
    [("__proto__", string_array_param); ("tags", string_array_param)].

(** [{ type: 'string', description: 'Search text', required: true }] *)
Definition query_param : ToolParam :=
  mkToolParam TString (Some "Search text") (Some true) None None None None.

(** [{ type: 'number', default: 10, required: false }] *)
Definition limit_param : ToolParam :=
  mkToolParam TNumber None (Some false) (Some (JNum 10)) None None None.

(** [{ name: 'search', description: 'Search for items',
       params: { query: ..., limit: ..., tags: { type: 'array',
       items: { type: 'string' } } } }] *)
Definition search_tool : UniversalTool :=
  mkUniversalTool "search" "Search for items"
    [("query", query_param); ("limit", limit_param);
     ("tags", string_array_param)].

(** A parameter with a falsy [description] (the empty string) and a
    falsy [required] ([false]) taken out, and a tool with every parameter
    so reduced. *)
Definition drop_falsy (p : ToolParam) : ToolParam :=
  mkToolParam (type p)
    (if truthy_string (description p) then description p else None)
    (if truthy_bool (required p) then required p else None)
    (default p) (enum p) (items p) (properties p).

Definition drop_falsy_tool (tool : UniversalTool) : UniversalTool :=
  mkUniversalTool (name tool) (tool_description tool)
    (map (fun e => (fst e, drop_falsy (snd e))) (params tool)).

(* ================================================================= *)
(** ** Own properties of objects *)

Section ObjectFacts.

Lemma obj_get_put_same (k : string) (v : Json) (o : Obj) :
  obj_get k (obj_put k v o) = Some v.
Proof.
  induction o as [|[k' w] o IH]; simpl.
  - now rewrite String.eqb_refl.
  - destruct (String.eqb k' k) eqn:E; simpl; now rewrite E.
Qed.

Lemma obj_get_put_other (k k' : string) (v : Json) (o : Obj) :
  k <> k' -> obj_get k (obj_put k' v o) = obj_get k o.
Proof.
  intros Hne.
  induction o as [|[k0 w] o IH]; simpl.
  - destruct (String.eqb_spec k' k); [congruence | reflexivity].
  - destruct (String.eqb_spec k0 k') as [->|Hk0]; simpl.
    + destruct (String.eqb_spec k' k); [congruence | reflexivity].
    + now rewrite IH.
Qed.

Lemma obj_get_set_same (k : string) (v : Json) (o : Obj) :
  k <> "__proto__" -> obj_get k (obj_set k v o) = Some v.
Proof.
  intros Hk. unfold obj_set.
  destruct (String.eqb_spec k "__proto__"); [contradiction|].
  apply obj_get_put_same.
Qed.

Lemma obj_get_set_other (k k' : string) (v : Json) (o : Obj) :
  k <> k' -> obj_get k (obj_set k' v o) = obj_get k o.
Proof.
  intros Hne. unfold obj_set.
  destruct (String.eqb k' "__proto__"); [reflexivity|].
  now apply obj_get_put_other.
Qed.

(** No assignment ever gives a plain object the own key [__proto__]. *)
Lemma obj_get_set_proto (k : string) (v : Json) (o : Obj) :
  obj_get "__proto__" (obj_set k v o) = obj_get "__proto__" o.
Proof.
  unfold obj_set.
  destruct (String.eqb_spec k "__proto__") as [->|Hk]; [reflexivity|].
  apply obj_get_put_other. congruence.
Qed.

End ObjectFacts.

(* ================================================================= *)
(** ** The adapters' loop *)

Section LoopFacts.

Variable convertParam : ToolParam -> Json.

(** The loop only ever appends to [required], and appends exactly the
    names whose parameter has a truthy [required]. *)
Lemma loop_required (entries : list (string * ToolParam)) (acc : Acc) :
  snd (fold_left (generic_loop_body convertParam) entries acc)
  = snd acc ++ required_names entries.
Proof.
  revert acc.
  induction entries as [|[n p] entries IH]; intros acc; simpl.
  - now rewrite app_nil_r.
  - rewrite IH. unfold required_names, generic_loop_body, push. simpl.
    destruct (truthy_bool (required p)); simpl.
    + now rewrite <- app_assoc.
    + reflexivity.
Qed.

(** A key the remaining entries do not assign keeps its value. *)
Lemma loop_properties_frame (entries : list (string * ToolParam)) (acc : Acc)
      (k : string) :
  ~ In k (map fst entries) ->
  obj_get k (fst (fold_left (generic_loop_body convertParam) entries acc))
  = obj_get k (fst acc).
Proof.
  revert acc.
  induction entries as [|[n p] entries IH]; intros acc Hk; simpl.
  - reflexivity.
  - simpl in Hk. rewrite IH by tauto.
    unfold generic_loop_body. simpl.
    apply obj_get_set_other. intros ->. tauto.
Qed.

(** Every declared parameter other than [__proto__] ends up as an own
    key of [properties], holding its converted descriptor. *)
Lemma loop_properties_get (entries : list (string * ToolParam)) (acc : Acc)
      (k : string) (p : ToolParam) :
  NoDup (map fst entries) ->
  In (k, p) entries ->
  k <> "__proto__" ->
  obj_get k (fst (fold_left (generic_loop_body convertParam) entries acc))
  = Some (convertParam p).
Proof.
  revert acc.
  induction entries as [|[n q] entries IH]; intros acc Hnd Hin Hk; simpl.
  - contradiction.
  - simpl in Hnd. inversion Hnd as [|? ? Hn Hnd']; subst.
    destruct Hin as [Heq|Hin].
    + inversion Heq; subst.
      rewrite loop_properties_frame by assumption.
      unfold generic_loop_body. simpl.
      now apply obj_get_set_same.
    + now apply IH.
Qed.

(** The key [__proto__] never becomes an own key of [properties]. *)
Lemma loop_properties_proto (entries : list (string * ToolParam)) (acc : Acc) :
  obj_get "__proto__" (fst (fold_left (generic_loop_body convertParam) entries acc))
  = obj_get "__proto__" (fst acc).
Proof.
  revert acc.
  induction entries as [|[n p] entries IH]; intros acc; simpl.
  - reflexivity.
  - rewrite IH. unfold generic_loop_body. simpl.
    apply obj_get_set_proto.
Qed.

End LoopFacts.

Lemma fold_left_pointwise {A B : Type} (f g : A -> B -> A) (l : list B) (a : A) :
  (forall x y, f x y = g x y) -> fold_left f l a = fold_left g l a.
Proof.
  intros Hfg. revert a.
  induction l as [|y l IH]; intros a; simpl.
  - reflexivity.
  - now rewrite Hfg, IH.
Qed.

(** Each adapter's loop is the generic one at its own [convertParam]. *)
Lemma OpenAI_loop (entries : list (string * ToolParam)) (acc : Acc) :
  fold_left OpenAI.loop_body entries acc
  = fold_left (generic_loop_body OpenAI.convertParam) entries acc.
Proof. apply fold_left_pointwise. now intros [ps rs] [n p]. Qed.

Lemma Anthropic_loop (entries : list (string * ToolParam)) (acc : Acc) :
  fold_left Anthropic.loop_body entries acc
  = fold_left (generic_loop_body Anthropic.convertParam) entries acc.
Proof. apply fold_left_pointwise. now intros [ps rs] [n p]. Qed.

Lemma Gemini_loop (entries : list (string * ToolParam)) (acc : Acc) :
  fold_left Gemini.loop_body entries acc
  = fold_left (generic_loop_body Gemini.convertParam) entries acc.
Proof. apply fold_left_pointwise. now intros [ps rs] [n p]. Qed.

Lemma Mistral_loop (entries : list (string * ToolParam)) (acc : Acc) :
  fold_left Mistral.loop_body entries acc
  = fold_left (generic_loop_body Mistral.convertParam) entries acc.
Proof. apply fold_left_pointwise. now intros [ps rs] [n p]. Qed.

(** What each adapter stores under [properties] and [required]. *)
Lemma OpenAI_schema (tool : UniversalTool) :
  output_properties "openai" (OpenAI.openaiAdapter tool)
  = Some (JObj (fst (generic_loop OpenAI.convertParam (params tool)))) /\
  output_required "openai" (OpenAI.openaiAdapter tool)
  = Some (JArr (map JStr (required_names (params tool)))).
Proof.
  unfold OpenAI.openaiAdapter, generic_loop. rewrite OpenAI_loop.
  pose proof (loop_required OpenAI.convertParam (params tool) ([], [])) as Hr.
  destruct (fold_left _ _ _) as [ps rs]. simpl in Hr. subst rs.
  split; reflexivity.
Qed.

Lemma Anthropic_schema (tool : UniversalTool) :
  output_properties "anthropic" (Anthropic.anthropicAdapter tool)
  = Some (JObj (fst (generic_loop Anthropic.convertParam (params tool)))) /\
  output_required "anthropic" (Anthropic.anthropicAdapter tool)
  = Some (JArr (map JStr (required_names (params tool)))).
Proof.
  unfold Anthropic.anthropicAdapter, generic_loop. rewrite Anthropic_loop.
  pose proof (loop_required Anthropic.convertParam (params tool) ([], [])) as Hr.
  destruct (fold_left _ _ _) as [ps rs]. simpl in Hr. subst rs.
  split; reflexivity.
Qed.

Lemma Gemini_schema (tool : UniversalTool) :
  output_properties "gemini" (Gemini.geminiAdapter tool)
  = Some (JObj (fst (generic_loop Gemini.convertParam (params tool)))) /\
  output_required "gemini" (Gemini.geminiAdapter tool)
  = Some (JArr (map JStr (required_names (params tool)))).
Proof.
  unfold Gemini.geminiAdapter, generic_loop. rewrite Gemini_loop.
  pose proof (loop_required Gemini.convertParam (params tool) ([], [])) as Hr.
  destruct (fold_left _ _ _) as [ps rs]. simpl in Hr. subst rs.
  split; reflexivity.
Qed.

Lemma Mistral_schema (tool : UniversalTool) :
  output_properties "mistral" (Mistral.mistralAdapter tool)
  = Some (JObj (fst (generic_loop Mistral.convertParam (params tool)))) /\
  output_required "mistral" (Mistral.mistralAdapter tool)
  = Some (JArr (map JStr (required_names (params tool)))).
Proof.
  unfold Mistral.mistralAdapter, generic_loop. rewrite Mistral_loop.
  pose proof (loop_required Mistral.convertParam (params tool) ([], [])) as Hr.
  destruct (fold_left _ _ _) as [ps rs]. simpl in Hr. subst rs.
  split; reflexivity.
Qed.

(** Case analysis on a registry entry. *)
Lemma registered_cases (provider : string) (adapter : UniversalTool -> Json) :
  In (provider, adapter) adapters ->
  (provider = "openai" /\ adapter = OpenAI.openaiAdapter) \/
  (provider = "anthropic" /\ adapter = Anthropic.anthropicAdapter) \/
  (provider = "gemini" /\ adapter = Gemini.geminiAdapter) \/
  (provider = "mistral" /\ adapter = Mistral.mistralAdapter).
Proof.
  unfold adapters. simpl.
  intros [H|[H|[H|[H|[]]]]]; inversion H; subst; tauto.
Qed.

Ltac by_provider H :=
  apply registered_cases in H;
  destruct H as [[-> ->]|[[-> ->]|[[-> ->]|[-> ->]]]].

(** The same, for whichever adapter the registry holds. *)
Lemma registered_schema (provider : string) (adapter : UniversalTool -> Json)
      (tool : UniversalTool) :
  In (provider, adapter) adapters ->
  output_properties provider (adapter tool)
  = Some (JObj (fst (generic_loop (convertParam_of provider) (params tool)))) /\
  output_required provider (adapter tool)
  = Some (JArr (map JStr (required_names (params tool)))).
Proof.
  intros H. by_provider H.
  - apply OpenAI_schema.
  - apply Anthropic_schema.
  - apply Gemini_schema.
  - apply Mistral_schema.
Qed.

(** The dispatcher on a registered provider: one lookup, one call, the
    adapter's output. *)
Lemma adapt_registered (provider : string) (adapter : UniversalTool -> Json)
      (tool : UniversalTool) :
  In (provider, adapter) adapters ->
  adapt tool provider = ([Lookup provider; Call], inr (VJson (adapter tool))).
Proof.
  intros H. by_provider H; reflexivity.
Qed.

(** When [adapters[provider]] is [undefined]. *)
Lemma assoc_None {A : Type} (key : string) (l : list (string * A)) :
  assoc key l = None <-> ~ In key (map fst l).
Proof.
  induction l as [|[k v] l IH]; simpl.
  - tauto.
  - destruct (String.eqb_spec k key) as [->|Hne].
    + split; [discriminate | tauto].
    + rewrite IH. tauto.
Qed.

Lemma adapters_get_None (provider : string) :
  adapters_get provider = None <->
  ~ In provider getProviders /\ ~ In provider (map fst Object_prototype).
Proof.
  unfold adapters_get, getProviders.
  destruct (assoc provider adapters) eqn:E.
  - split; [discriminate|].
    intros [Hown _]. apply assoc_None in Hown. congruence.
  - apply assoc_None in E. rewrite assoc_None. tauto.
Qed.

(** The dispatcher on a name found neither on the registry nor on its
    prototype: one lookup, no call, the unknown-provider error. *)
Lemma adapt_undefined (provider : string) (tool : UniversalTool) :
  adapters_get provider = None ->
  adapt tool provider
  = ([Lookup provider], inl (Error (unknown_provider_message provider))).
Proof.
  intros H. unfold adapt. simpl. now rewrite H.
Qed.

(** The error message names the offending identifier and then the four
    registered ones. *)
Lemma unknown_provider_message_eq (provider : string) :
  unknown_provider_message provider
  = ("Unknown provider: " ++ provider
       ++ ". Supported providers: openai, anthropic, gemini, mistral")%string.
Proof. reflexivity. Qed.

(* ================================================================= *)
(** ** The dispatcher and the batch call *)

(** [array_map] over a callback whose first call throws. *)
Lemma array_map_first_throws {A B : Type} (f : A -> Eff B) (x : A) (rest : list A)
      (log : list Event) (e : JsError) :
  f x = (log, inl e) -> array_map f (x :: rest) = (log, inl e).
Proof.
  intros H. simpl. unfold bind. now rewrite H.
Qed.

(** What the batch call does achieve: on a non-empty sequence of tools
    and a provider name that is neither registered nor inherited by the
    registry object, [adaptAll] fails with the unknown-provider error
    raised by the first element's [adapt], the registry having been read
    exactly once and no adapter called. *)
Theorem adaptAll_unknown_provider_fails_fast
        (tools : list UniversalTool) (provider : string) :
  tools <> [] ->
  ~ In provider getProviders ->
  ~ In provider (map fst Object_prototype) ->
  adaptAll tools provider
  = ([Lookup provider], inl (Error (unknown_provider_message provider))) /\
  fails_fast tools provider.
Proof.
  intros Hne Hown Hinh.
  assert (Hrun : adaptAll tools provider
                 = ([Lookup provider],
                    inl (Error (unknown_provider_message provider)))).
  { destruct tools as [|tool rest]; [congruence|].
    unfold adaptAll. apply array_map_first_throws.
    apply adapt_undefined. apply adapters_get_None. tauto. }
  split; [exact Hrun|].
  unfold fails_fast, outcome, lookups, calls, log_of.
  rewrite Hrun. simpl. tauto.
Qed.

Lemma adaptAll_unknown_provider_fails_fast_witness :
  [weather_tool; ping_tool] <> [] /\
  ~ In "invalid" getProviders /\
  ~ In "invalid" (map fst Object_prototype) /\
  fails_fast [weather_tool; ping_tool] "invalid".
Proof.
  assert (H1 : [weather_tool; ping_tool] <> []) by discriminate.
  assert (H2 : ~ In "invalid" getProviders)
    by (simpl; intuition discriminate).
  assert (H3 : ~ In "invalid" (map fst Object_prototype))
    by (simpl; intuition discriminate).
  split; [exact H1|]. split; [exact H2|]. split; [exact H3|].
  exact (proj2 (adaptAll_unknown_provider_fails_fast
                  [weather_tool; ping_tool] "invalid" H1 H2 H3)).
Defined.

(** C1, at the failing input.  ["invalid"] is not a registered provider,
    yet on the empty sequence [[].map] never runs its callback: the
    provider is neither looked up nor rejected, and [adaptAll] returns the
    empty result where its [@throws] contract and the fail-fast rule
    promise the unknown-provider error. *)
Lemma adaptAll_empty_ignores_provider :
  ~ In "invalid" getProviders /\
  adaptAll [] "invalid" = ([], inr []) /\
  ~ fails_fast [] "invalid".
Proof.
  split; [simpl; intuition discriminate|].
  split; [reflexivity|].
  unfold fails_fast. intros [H _]. discriminate H.
Qed.

(** On a registered provider the registry is read once per element,
    and the results come in the order of the input. *)
Lemma adaptAll_registered_run (provider : string) (adapter : UniversalTool -> Json)
      (tools : list UniversalTool) :
  In (provider, adapter) adapters ->
  adaptAll tools provider
  = (flat_map (fun _ => [Lookup provider; Call]) tools,
     inr (map (fun t => VJson (adapter t)) tools)).
Proof.
  intros H. unfold adaptAll.
  induction tools as [|tool rest IH]; [reflexivity|].
  simpl. rewrite (adapt_registered _ _ tool H), IH.
  unfold bind, ret. simpl. now rewrite app_nil_r.
Qed.

Lemma adaptAll_registered (provider : string) (adapter : UniversalTool -> Json)
      (tools : list UniversalTool) :
  In (provider, adapter) adapters ->
  outcome (adaptAll tools provider) = inr (map (fun t => VJson (adapter t)) tools) /\
  lookups (adaptAll tools provider) = length tools.
Proof.
  intros H. unfold outcome, lookups, log_of.
  rewrite (adaptAll_registered_run _ _ tools H). simpl.
  split; [reflexivity|].
  induction tools as [|tool rest IH]; simpl; [reflexivity | now rewrite IH].
Qed.

(** C2, at the failing input.  [constructor] is not a registered
    provider, yet [adapters["constructor"]] is the inherited [Object]
    function, which is truthy: the guard lets it through and the call
    hands the tool back unconverted instead of raising the
    unknown-provider error. *)
Theorem adapt_inherited_name_not_rejected (tool : UniversalTool) :
  ~ In "constructor" getProviders /\
  adapt tool "constructor" = ([Lookup "constructor"; Call], inr (VTool tool)) /\
  adapt tool "toString"
  = ([Lookup "toString"; Call], inr (VJson (JStr "[object Undefined]"))) /\
  adapt tool "__proto__" = ([Lookup "__proto__"], inl TypeError).
Proof.
  split; [simpl; intuition discriminate|].
  repeat split; reflexivity.
Qed.

(** What the guard does achieve: a name that is on neither the registry
    nor its prototype is rejected with a message that carries it and lists
    the four registered providers, and the four registered providers are
    never rejected. *)
Lemma adapt_rejects_absent_names (tool : UniversalTool) (provider : string) :
  ~ In provider getProviders ->
  ~ In provider (map fst Object_prototype) ->
  outcome (adapt tool provider)
  = inl (Error ("Unknown provider: " ++ provider
                ++ ". Supported providers: openai, anthropic, gemini, mistral")%string).
Proof.
  intros Hown Hinh.
  rewrite adapt_undefined by (apply adapters_get_None; tauto).
  reflexivity.
Qed.

Lemma adapt_accepts_registered (tool : UniversalTool) (provider : string) :
  In provider getProviders ->
  exists j, outcome (adapt tool provider) = inr (VJson j).
Proof.
  unfold getProviders. rewrite in_map_iff. intros [[p adapter] [Hp Hin]].
  simpl in Hp. subst p.
  exists (adapter tool). now rewrite (adapt_registered _ _ tool Hin).
Qed.

Lemma getProviders_eq :
  getProviders = ["openai"; "anthropic"; "gemini"; "mistral"].
Proof. reflexivity. Qed.

(* ================================================================= *)
(** ** The envelopes *)

Lemma OpenAI_Mistral_convertParam (param : ToolParam) :
  OpenAI.convertParam param = Mistral.convertParam param.
Proof.
  unfold OpenAI.convertParam, Mistral.convertParam.
  destruct (truthy_string (description param)), (truthy_ref (enum param)),
    (defined (default param)), (is_array (type param)), (items param);
    reflexivity.
Qed.

(** C3.  The OpenAI adapter and the Mistral adapter, two separate
    implementations, produce equal output on every tool. *)
Theorem openai_mistral_same_output (tool : UniversalTool) :
  OpenAI.openaiAdapter tool = Mistral.mistralAdapter tool.
Proof.
  unfold OpenAI.openaiAdapter, Mistral.mistralAdapter.
  rewrite OpenAI_loop, Mistral_loop.
  rewrite (fold_left_pointwise
             (generic_loop_body OpenAI.convertParam)
             (generic_loop_body Mistral.convertParam)).
  - reflexivity.
  - intros acc entry. unfold generic_loop_body.
    now rewrite OpenAI_Mistral_convertParam.
Qed.

(** C5.  The [get_weather] tool under ["anthropic"] converts to exactly
    the flat [name] / [description] / [input_schema] object, which has
    neither a [type] nor a [function] key at its top level. *)
Theorem anthropic_weather_envelope :
  let expected :=
    JObj [("name", JStr "get_weather");
          ("description", JStr "d");
          ("input_schema",
           JObj [("type", JStr "object");
                 ("properties", JObj [("location", JObj [("type", JStr "string")])]);
                 ("required", JArr [JStr "location"])])] in
  outcome (adapt weather_tool "anthropic") = inr (VJson expected) /\
  has_field "type" expected = false /\
  has_field "function" expected = false.
Proof.
  repeat split; reflexivity.
Qed.

(* ================================================================= *)
(** ** Property descriptors *)

(** Every [convertParam] splits on the same five tests. *)
Ltac by_param_shape param :=
  destruct param as [t d r df e it np];
  destruct d as [[|c d]|], e as [vs|], df as [v|], it as [it|], t;
  reflexivity.

(** The descriptor Gemini's [convertParam] builds: upper-cased [type]
    and item [type], [enum] and [description] as supplied; and the same
    parameter through the four [convertParam] functions. *)
Lemma Gemini_convertParam_tags :
  (forall tool,
     path ["parameters"; "type"] (Gemini.geminiAdapter tool) = Some (JStr "OBJECT")) /\
  (forall param,
     field "type" (Gemini.convertParam param)
     = Some (JStr (toUpperCase (ParamType_str (type param))))) /\
  (forall param,
     field "items" (Gemini.convertParam param)
     = if is_array (type param)
       then option_map
              (fun it => JObj [("type", JStr (toUpperCase (ParamType_str it)))])
              (items param)
       else None) /\
  (forall kind,
     toUpperCase (ParamType_str kind)
     = match kind with
       | TString => "STRING"
       | TNumber => "NUMBER"
       | TBoolean => "BOOLEAN"
       | TArray => "ARRAY"
       | TObject => "OBJECT"
       end) /\
  (forall param,
     field "enum" (Gemini.convertParam param)
     = option_map (fun vs => JArr (map JStr vs)) (enum param)) /\
  (forall param,
     field "description" (Gemini.convertParam param)
     = if truthy_string (description param)
       then option_map JStr (description param)
       else None) /\
  Gemini.convertParam units_param
  = JObj [("type", JStr "STRING");
          ("description", JStr "Unit");
          ("enum", JArr [JStr "celsius"; JStr "Fahrenheit"])] /\
  Gemini.convertParam string_array_param
  = JObj [("type", JStr "ARRAY"); ("items", JObj [("type", JStr "STRING")])] /\
  OpenAI.convertParam string_array_param
  = JObj [("type", JStr "array"); ("items", JObj [("type", JStr "string")])] /\
  Anthropic.convertParam string_array_param
  = JObj [("type", JStr "array"); ("items", JObj [("type", JStr "string")])] /\
  Mistral.convertParam string_array_param
  = JObj [("type", JStr "array"); ("items", JObj [("type", JStr "string")])].
Proof.
  split.
  { intros tool. unfold Gemini.geminiAdapter.
    destruct (fold_left _ _ _) as [ps rs]. reflexivity. }
  split; [intros param; by_param_shape param|].
  split; [intros param; by_param_shape param|].
  split; [intros []; reflexivity|].
  split; [intros param; by_param_shape param|].
  split; [intros param; by_param_shape param|].
  repeat split; reflexivity.
Qed.

(** In every [convertParam] the descriptor's [default] key holds
    exactly the parameter's default whenever one was supplied, and is
    missing otherwise; the falsy defaults [0], [false] and [""] are copied
    like any other. *)
Lemma default_copied_when_supplied :
  (forall param, field "default" (OpenAI.convertParam param) = default param) /\
  (forall param, field "default" (Anthropic.convertParam param) = default param) /\
  (forall param, field "default" (Gemini.convertParam param) = default param) /\
  (forall param, field "default" (Mistral.convertParam param) = default param) /\
  (forall provider,
     field "default" (convertParam_of provider zero_default) = Some (JNum 0) /\
     field "default" (convertParam_of provider false_default) = Some (JBool false) /\
     field "default" (convertParam_of provider empty_default) = Some (JStr "") /\
     has_field "default" (convertParam_of provider location_param) = false).
Proof.
  split; [intros param; by_param_shape param|].
  split; [intros param; by_param_shape param|].
  split; [intros param; by_param_shape param|].
  split; [intros param; by_param_shape param|].
  intros provider. unfold convertParam_of.
  destruct (String.eqb provider "openai"); [repeat split; reflexivity|].
  destruct (String.eqb provider "anthropic"); [repeat split; reflexivity|].
  destruct (String.eqb provider "gemini"); repeat split; reflexivity.
Qed.

(** In every [convertParam] the descriptor has an [items] key exactly
    when the parameter's type is [array] and [items] is supplied: stray
    [items] on another type are left out, and an array without [items]
    gets no [items] key at all. *)
Lemma items_only_for_arrays_with_items :
  (forall param,
     has_field "items" (OpenAI.convertParam param)
     = is_array (type param) && defined (items param)) /\
  (forall param,
     has_field "items" (Anthropic.convertParam param)
     = is_array (type param) && defined (items param)) /\
  (forall param,
     has_field "items" (Gemini.convertParam param)
     = is_array (type param) && defined (items param)) /\
  (forall param,
     has_field "items" (Mistral.convertParam param)
     = is_array (type param) && defined (items param)) /\
  (forall provider,
     convertParam_of provider stray_items_param
     = convertParam_of provider (plain TString) /\
     has_field "items" (convertParam_of provider stray_items_param) = false /\
     has_field "items" (convertParam_of provider (plain TArray)) = false /\
     has_field "items" (convertParam_of provider string_array_param) = true).
Proof.
  split; [intros param; by_param_shape param|].
  split; [intros param; by_param_shape param|].
  split; [intros param; by_param_shape param|].
  split; [intros param; by_param_shape param|].
  intros provider. unfold convertParam_of.
  destruct (String.eqb provider "openai"); [repeat split; reflexivity|].
  destruct (String.eqb provider "anthropic"); [repeat split; reflexivity|].
  destruct (String.eqb provider "gemini"); repeat split; reflexivity.
Qed.

(* ================================================================= *)
(** ** The [required] list and the [properties] record *)

Lemma required_names_spec (entries : list (string * ToolParam)) (n : string) :
  In n (required_names entries) <->
  exists p, In (n, p) entries /\ required p = Some true.
Proof.
  unfold required_names. rewrite in_map_iff. split.
  - intros [[n' p] [Hn Hin]]. simpl in Hn. subst n'.
    apply filter_In in Hin. destruct Hin as [Hin Hreq]. simpl in Hreq.
    exists p. split; [assumption|].
    destruct (required p) as [[|]|]; simpl in Hreq; congruence.
  - intros [p [Hin Hreq]]. exists (n, p). split; [reflexivity|].
    apply filter_In. split; [assumption|]. simpl. now rewrite Hreq.
Qed.

(** Under every registered provider the [required] list is exactly the
    names, in traversal order, of the parameters whose [required] is
    [true]. *)
Lemma required_list_exact (provider : string) (adapter : UniversalTool -> Json)
      (tool : UniversalTool) :
  In (provider, adapter) adapters ->
  exists names,
    output_required provider (adapter tool) = Some (JArr (map JStr names)) /\
    forall n, In n names <->
              exists p, In (n, p) (params tool) /\ required p = Some true.
Proof.
  intros H. exists (required_names (params tool)). split.
  - now apply registered_schema.
  - apply required_names_spec.
Qed.

(** A declared parameter whose name is not [__proto__] is an own key of
    the output [properties], required or not, and holds its converted
    descriptor. *)
Lemma declared_param_present (provider : string) (adapter : UniversalTool -> Json)
      (tool : UniversalTool) (n : string) (p : ToolParam) :
  In (provider, adapter) adapters ->
  NoDup (map fst (params tool)) ->
  In (n, p) (params tool) ->
  n <> "__proto__" ->
  exists props,
    output_properties provider (adapter tool) = Some (JObj props) /\
    obj_get n props = Some (convertParam_of provider p).
Proof.
  intros H Hnd Hin Hn.
  exists (fst (generic_loop (convertParam_of provider) (params tool))). split.
  - now apply registered_schema.
  - unfold generic_loop. now apply loop_properties_get.
Qed.

(** No adapter ever emits [__proto__] as an own key of [properties]. *)
Lemma proto_never_emitted (provider : string) (adapter : UniversalTool -> Json)
      (tool : UniversalTool) :
  In (provider, adapter) adapters ->
  exists props,
    output_properties provider (adapter tool) = Some (JObj props) /\
    obj_get "__proto__" props = None.
Proof.
  intros H.
  exists (fst (generic_loop (convertParam_of provider) (params tool))). split.
  - now apply registered_schema.
  - unfold generic_loop. now rewrite loop_properties_proto.
Qed.

(** C6, at the failing input.  The tool declares one parameter, named
    [__proto__], with [required] absent.  It is rightly left out of
    [required], but the assignment [properties["__proto__"] = ...] runs
    the inherited setter instead of defining a key, so the parameter is
    missing from the output [properties] of all four adapters. *)
Theorem proto_param_missing_from_properties :
  In ("__proto__", plain TString) (params proto_tool) /\
  required (plain TString) = None /\
  output_required "openai" (OpenAI.openaiAdapter proto_tool) = Some (JArr []) /\
  output_properties "openai" (OpenAI.openaiAdapter proto_tool) = Some (JObj []) /\
  output_properties "anthropic" (Anthropic.anthropicAdapter proto_tool)
  = Some (JObj []) /\
  output_properties "gemini" (Gemini.geminiAdapter proto_tool) = Some (JObj []) /\
  output_properties "mistral" (Mistral.mistralAdapter proto_tool) = Some (JObj []).
Proof.
  split; [left; reflexivity|].
  repeat split; reflexivity.
Qed.

(** C8.  Under every registered provider the conversion of any tool
    returns a schema (nothing is thrown) in which [properties] is an
    object and [required] an array; for a tool without parameters they are
    [{}] and [[]]. *)
Theorem adapters_total_empty_params
        (provider : string) (adapter : UniversalTool -> Json) (tool : UniversalTool) :
  In (provider, adapter) adapters ->
  outcome (adapt tool provider) = inr (VJson (adapter tool)) /\
  (exists props names,
     output_properties provider (adapter tool) = Some (JObj props) /\
     output_required provider (adapter tool) = Some (JArr (map JStr names))) /\
  (params tool = [] ->
   output_properties provider (adapter tool) = Some (JObj []) /\
   output_required provider (adapter tool) = Some (JArr [])).
Proof.
  intros H.
  destruct (registered_schema provider adapter tool H) as [Hp Hr].
  split; [now rewrite (adapt_registered _ _ tool H)|].
  split; [eauto|].
  intros Hempty. rewrite Hp, Hr, Hempty. split; reflexivity.
Qed.

Lemma adapters_total_empty_params_witness :
  In ("gemini", Gemini.geminiAdapter) adapters /\
  params ping_tool = [] /\
  output_properties "gemini" (Gemini.geminiAdapter ping_tool) = Some (JObj []) /\
  output_required "gemini" (Gemini.geminiAdapter ping_tool) = Some (JArr []).
Proof.
  assert (H : In ("gemini", Gemini.geminiAdapter) adapters)
    by (simpl; tauto).
  split; [exact H|]. split; [reflexivity|].
  exact (proj2 (proj2 (adapters_total_empty_params
                         "gemini" Gemini.geminiAdapter ping_tool H))
               eq_refl).
Defined.

(* ================================================================= *)
(** ** Independence from nested [properties] *)

Section IgnoresProperties.

Variable convertParam : ToolParam -> Json.
Hypothesis convertParam_blind :
  forall p, convertParam p = convertParam (without_properties p).

Lemma loop_body_blind (acc : Acc) (e1 e2 : string * ToolParam) :
  fst e1 = fst e2 ->
  same_but_properties (snd e1) (snd e2) ->
  generic_loop_body convertParam acc e1 = generic_loop_body convertParam acc e2.
Proof.
  unfold same_but_properties, generic_loop_body. intros Hn Hp.
  rewrite Hn, (convertParam_blind (snd e1)), Hp, <- convertParam_blind.
  replace (required (snd e1)) with (required (without_properties (snd e1)))
    by reflexivity.
  now rewrite Hp.
Qed.

Lemma loop_blind (l1 l2 : list (string * ToolParam)) (acc : Acc) :
  Forall2 (fun e1 e2 => fst e1 = fst e2 /\ same_but_properties (snd e1) (snd e2))
    l1 l2 ->
  fold_left (generic_loop_body convertParam) l1 acc
  = fold_left (generic_loop_body convertParam) l2 acc.
Proof.
  intros H. revert acc.
  induction H as [|e1 e2 l1 l2 [Hn Hp] _ IH]; intros acc; simpl.
  - reflexivity.
  - now rewrite (loop_body_blind acc e1 e2 Hn Hp), IH.
Qed.

End IgnoresProperties.

Lemma OpenAI_convertParam_blind (p : ToolParam) :
  OpenAI.convertParam p = OpenAI.convertParam (without_properties p).
Proof. now destruct p. Qed.

Lemma Anthropic_convertParam_blind (p : ToolParam) :
  Anthropic.convertParam p = Anthropic.convertParam (without_properties p).
Proof. now destruct p. Qed.

Lemma Gemini_convertParam_blind (p : ToolParam) :
  Gemini.convertParam p = Gemini.convertParam (without_properties p).
Proof. now destruct p. Qed.

Lemma Mistral_convertParam_blind (p : ToolParam) :
  Mistral.convertParam p = Mistral.convertParam (without_properties p).
Proof. now destruct p. Qed.

(** C9.  Two tools that differ only in the [properties] field of their
    parameters convert to equal outputs under every registered provider,
    through the adapter and through [adapt] alike. *)
Theorem output_independent_of_nested_properties
        (t1 t2 : UniversalTool) (provider : string)
        (adapter : UniversalTool -> Json) :
  differ_only_in_properties t1 t2 ->
  In (provider, adapter) adapters ->
  adapter t1 = adapter t2 /\ adapt t1 provider = adapt t2 provider.
Proof.
  intros (Hname & Hdesc & Hparams) H.
  assert (Hout : adapter t1 = adapter t2).
  { by_provider H.
    - unfold OpenAI.openaiAdapter. rewrite !OpenAI_loop.
      rewrite (loop_blind _ OpenAI_convertParam_blind _ _ _ Hparams).
      now rewrite Hname, Hdesc.
    - unfold Anthropic.anthropicAdapter. rewrite !Anthropic_loop.
      rewrite (loop_blind _ Anthropic_convertParam_blind _ _ _ Hparams).
      now rewrite Hname, Hdesc.
    - unfold Gemini.geminiAdapter. rewrite !Gemini_loop.
      rewrite (loop_blind _ Gemini_convertParam_blind _ _ _ Hparams).
      now rewrite Hname, Hdesc.
    - unfold Mistral.mistralAdapter. rewrite !Mistral_loop.
      rewrite (loop_blind _ Mistral_convertParam_blind _ _ _ Hparams).
      now rewrite Hname, Hdesc. }
  split; [exact Hout|].
  rewrite (adapt_registered _ _ t1 H), (adapt_registered _ _ t2 H).
  now rewrite Hout.
Qed.

Lemma output_independent_of_nested_properties_witness :
  address_tool <> address_tool' /\
  differ_only_in_properties address_tool address_tool' /\
  In ("openai", OpenAI.openaiAdapter) adapters /\
  OpenAI.openaiAdapter address_tool = OpenAI.openaiAdapter address_tool'.
Proof.
  assert (Hd : differ_only_in_properties address_tool address_tool').
  { unfold differ_only_in_properties. simpl.
    repeat split. constructor; [split; reflexivity | constructor]. }
  assert (Hin : In ("openai", OpenAI.openaiAdapter) adapters)
    by (simpl; tauto).
  split; [discriminate|]. split; [exact Hd|]. split; [exact Hin|].
  exact (proj1 (output_independent_of_nested_properties
                  address_tool address_tool' "openai" OpenAI.openaiAdapter
                  Hd Hin)).
Defined.

(* ================================================================= *)
(** ** The emitted [properties], key by key *)

Lemma obj_put_fresh (k : string) (v : Json) (o : Obj) :
  ~ In k (map fst o) -> obj_put k v o = o ++ [(k, v)].
Proof.
  induction o as [|[k' w] o IH]; simpl; intros H; [reflexivity|].
  destruct (String.eqb_spec k' k) as [->|Hne]; [tauto|].
  now rewrite IH by tauto.
Qed.

Lemma declared_app (cp : ToolParam -> Json) (l1 l2 : list (string * ToolParam)) :
  declared cp (l1 ++ l2) = declared cp l1 ++ declared cp l2.
Proof. unfold declared. now rewrite filter_app, map_app. Qed.

(** With distinct names, the loop extends [properties] by exactly the
    declared descriptors, in order. *)
Lemma loop_properties_exact (cp : ToolParam -> Json)
      (entries : list (string * ToolParam)) (acc : Acc) :
  NoDup (map fst entries) ->
  (forall k, In k (map fst (fst acc)) -> ~ In k (map fst entries)) ->
  fst (fold_left (generic_loop_body cp) entries acc)
  = fst acc ++ declared cp entries.
Proof.
  revert acc.
  induction entries as [|[n p] rest IH]; intros acc Hnd Hdis; simpl.
  - unfold declared. simpl. now rewrite app_nil_r.
  - inversion Hnd as [|? ? Hn Hnd']; subst.
    assert (Hfresh : ~ In n (map fst (fst acc))).
    { intros Hin. apply (Hdis n Hin). now left. }
    rewrite IH; [|assumption|].
    + unfold generic_loop_body, obj_set, declared. simpl.
      destruct (String.eqb n "__proto__"); simpl; [reflexivity|].
      rewrite obj_put_fresh by assumption. now rewrite <- app_assoc.
    + intros k Hk. unfold generic_loop_body, obj_set in Hk. simpl in Hk.
      destruct (String.eqb n "__proto__").
      * intros Hin. apply (Hdis k Hk). now right.
      * rewrite obj_put_fresh, map_app, in_app_iff in Hk by assumption.
        destruct Hk as [Hk|[<-|[]]]; [|assumption].
        intros Hin. apply (Hdis k Hk). now right.
Qed.

(** Whatever the names, a declared name other than [__proto__] is an
    own key of [properties] after the loop. *)
Lemma loop_properties_has (cp : ToolParam -> Json)
      (entries : list (string * ToolParam)) (acc : Acc) (k : string) :
  In k (map fst entries) ->
  k <> "__proto__" ->
  exists d, obj_get k (fst (fold_left (generic_loop_body cp) entries acc)) = Some d.
Proof.
  revert acc.
  induction entries as [|[n p] rest IH]; intros acc Hin Hk; simpl.
  - contradiction.
  - destruct (in_dec string_dec k (map fst rest)) as [Hrest|Hrest].
    + now apply IH.
    + destruct Hin as [Heq|Hin]; [|contradiction]. simpl in Heq. subst n.
      rewrite loop_properties_frame by assumption.
      exists (cp p). unfold generic_loop_body. simpl.
      now apply obj_get_set_same.
Qed.

Lemma required_names_declared (entries : list (string * ToolParam)) (n : string) :
  In n (required_names entries) -> In n (map fst entries).
Proof.
  intros H. apply required_names_spec in H. destruct H as [p [Hin _]].
  apply in_map_iff. now exists (n, p).
Qed.

Lemma required_names_NoDup (entries : list (string * ToolParam)) :
  NoDup (map fst entries) -> NoDup (required_names entries).
Proof.
  induction entries as [|[n p] rest IH]; simpl; intros Hnd.
  - constructor.
  - inversion Hnd as [|? ? Hn Hnd']; subst.
    unfold required_names. simpl.
    destruct (truthy_bool (required p)); simpl; [|now apply IH].
    constructor; [|now apply IH].
    intros Hin. apply Hn. now apply required_names_declared.
Qed.

Lemma required_names_app (l1 l2 : list (string * ToolParam)) :
  required_names (l1 ++ l2) = required_names l1 ++ required_names l2.
Proof. unfold required_names. now rewrite filter_app, map_app. Qed.

(** The keys of [properties] do not depend on which [convertParam]
    built the descriptors. *)
Lemma obj_put_keys (k : string) (v v' : Json) (o o' : Obj) :
  map fst o = map fst o' -> map fst (obj_put k v o) = map fst (obj_put k v' o').
Proof.
  revert o'.
  induction o as [|[k1 w1] o IH]; intros [|[k2 w2] o'] H; simpl in *;
    try discriminate; [reflexivity|].
  inversion H; subst.
  destruct (String.eqb k2 k); simpl; f_equal; auto.
Qed.

Lemma loop_keys (cp cp' : ToolParam -> Json)
      (entries : list (string * ToolParam)) (acc acc' : Acc) :
  map fst (fst acc) = map fst (fst acc') ->
  map fst (fst (fold_left (generic_loop_body cp) entries acc))
  = map fst (fst (fold_left (generic_loop_body cp') entries acc')).
Proof.
  revert acc acc'.
  induction entries as [|[n p] rest IH]; intros acc acc' H; simpl.
  - assumption.
  - apply IH. unfold generic_loop_body, obj_set. simpl.
    destruct (String.eqb n "__proto__"); [assumption|].
    now apply obj_put_keys.
Qed.

(** The [properties] of a registered adapter on distinct names. *)
Lemma registered_properties_exact
      (provider : string) (adapter : UniversalTool -> Json) (tool : UniversalTool) :
  In (provider, adapter) adapters ->
  NoDup (map fst (params tool)) ->
  output_properties provider (adapter tool)
  = Some (JObj (declared (convertParam_of provider) (params tool))).
Proof.
  intros H Hnd.
  rewrite (proj1 (registered_schema provider adapter tool H)).
  unfold generic_loop. rewrite loop_properties_exact; [reflexivity|assumption|].
  intros k [].
Qed.

(** X1.  When the parameter names are distinct, as the keys of a record
    are, the [properties] an adapter emits is exactly the list of
    [name: convertParam(param)] pairs of the declared parameters, in
    traversal order, the name [__proto__] left out. *)
Theorem properties_are_declared_descriptors
        (provider : string) (adapter : UniversalTool -> Json) (tool : UniversalTool) :
  In (provider, adapter) adapters ->
  NoDup (map fst (params tool)) ->
  output_properties provider (adapter tool)
  = Some (JObj (declared (convertParam_of provider) (params tool))).
Proof.
  intros H Hnd. now apply registered_properties_exact.
Qed.

Lemma properties_are_declared_descriptors_witness :
  In ("gemini", Gemini.geminiAdapter) adapters /\
  NoDup (map fst (params search_tool)) /\
  output_properties "gemini" (Gemini.geminiAdapter search_tool)
  = Some (JObj [("query", JObj [("type", JStr "STRING");
                                ("description", JStr "Search text")]);
                ("limit", JObj [("type", JStr "NUMBER"); ("default", JNum 10)]);
                ("tags", JObj [("type", JStr "ARRAY");
                               ("items", JObj [("type", JStr "STRING")])])]).
Proof.
  assert (H : In ("gemini", Gemini.geminiAdapter) adapters) by (simpl; tauto).
  assert (Hnd : NoDup (map fst (params search_tool))).
  { simpl. repeat constructor; simpl; intuition discriminate. }
  split; [exact H|]. split; [exact Hnd|].
  exact (properties_are_declared_descriptors
           "gemini" Gemini.geminiAdapter search_tool H Hnd).
Defined.

(** X2.  When the parameter names are distinct, the [required] array an
    adapter emits lists the names with a truthy [required] in traversal
    order, each once. *)
Theorem required_in_order_without_duplicates
        (provider : string) (adapter : UniversalTool -> Json) (tool : UniversalTool) :
  In (provider, adapter) adapters ->
  NoDup (map fst (params tool)) ->
  output_required provider (adapter tool)
  = Some (JArr (map JStr (required_names (params tool)))) /\
  NoDup (required_names (params tool)).
Proof.
  intros H Hnd. split.
  - now apply registered_schema.
  - now apply required_names_NoDup.
Qed.

Lemma required_in_order_without_duplicates_witness :
  In ("openai", OpenAI.openaiAdapter) adapters /\
  NoDup (map fst (params search_tool)) /\
  output_required "openai" (OpenAI.openaiAdapter search_tool)
  = Some (JArr [JStr "query"]).
Proof.
  assert (H : In ("openai", OpenAI.openaiAdapter) adapters) by (simpl; tauto).
  assert (Hnd : NoDup (map fst (params search_tool))).
  { simpl. repeat constructor; simpl; intuition discriminate. }
  split; [exact H|]. split; [exact Hnd|].
  exact (proj1 (required_in_order_without_duplicates
                  "openai" OpenAI.openaiAdapter search_tool H Hnd)).
Defined.

(** X3.  Every name an adapter lists in [required], other than
    [__proto__], is a key of the [properties] it emits: the schema never
    requires a property it does not describe. *)
Theorem required_names_are_described
        (provider : string) (adapter : UniversalTool -> Json) (tool : UniversalTool)
        (n : string) :
  In (provider, adapter) adapters ->
  In n (required_names (params tool)) ->
  n <> "__proto__" ->
  exists props d,
    output_properties provider (adapter tool) = Some (JObj props) /\
    obj_get n props = Some d.
Proof.
  intros H Hreq Hn.
  destruct (loop_properties_has (convertParam_of provider) (params tool)
              ([], []) n (required_names_declared _ _ Hreq) Hn) as [d Hd].
  exists (fst (generic_loop (convertParam_of provider) (params tool))), d.
  split; [now apply registered_schema | exact Hd].
Qed.

Lemma required_names_are_described_witness :
  In ("anthropic", Anthropic.anthropicAdapter) adapters /\
  In "query" (required_names (params search_tool)) /\
  "query" <> "__proto__" /\
  exists props d,
    output_properties "anthropic" (Anthropic.anthropicAdapter search_tool)
    = Some (JObj props) /\
    obj_get "query" props = Some d.
Proof.
  assert (H : In ("anthropic", Anthropic.anthropicAdapter) adapters)
    by (simpl; tauto).
  assert (Hreq : In "query" (required_names (params search_tool)))
    by (simpl; tauto).
  assert (Hn : "query" <> "__proto__") by discriminate.
  split; [exact H|]. split; [exact Hreq|]. split; [exact Hn|].
  exact (required_names_are_described
           "anthropic" Anthropic.anthropicAdapter search_tool "query" H Hreq Hn).
Defined.

(** X4.  Declaring one more parameter last, under a fresh name that is
    neither [__proto__] nor starts with a digit (so is no array index),
    leaves every emitted descriptor and the existing [required] entries as
    they were: [properties] gains the new descriptor as its last key, and
    [required] gains the name at its end exactly when the new parameter's
    [required] is truthy. *)
Theorem appending_a_parameter
        (provider : string) (adapter : UniversalTool -> Json) (tool : UniversalTool)
        (n : string) (p : ToolParam) :
  In (provider, adapter) adapters ->
  NoDup (map fst (params tool)) ->
  ~ In n (map fst (params tool)) ->
  n <> "__proto__" ->
  starts_with_digit n = false ->
  exists props names,
    output_properties provider (adapter tool) = Some (JObj props) /\
    output_required provider (adapter tool) = Some (JArr (map JStr names)) /\
    output_properties provider (adapter (with_param tool n p))
    = Some (JObj (props ++ [(n, convertParam_of provider p)])) /\
    output_required provider (adapter (with_param tool n p))
    = Some (JArr (map JStr
                    (names ++ if truthy_bool (required p) then [n] else []))).
Proof.
  intros H Hnd Hfresh Hn _.
  exists (declared (convertParam_of provider) (params tool)),
         (required_names (params tool)).
  assert (Hnd' : NoDup (map fst (params (with_param tool n p)))).
  { simpl. rewrite map_app. apply NoDup_app; [assumption| |].
    - simpl. constructor; [tauto | constructor].
    - intros a Ha [<-|[]]. contradiction. }
  split; [now apply registered_properties_exact|].
  split; [now apply registered_schema|].
  split.
  - rewrite (registered_properties_exact _ _ _ H Hnd').
    simpl. rewrite declared_app. unfold declared at 2. simpl.
    destruct (String.eqb_spec n "__proto__"); [contradiction | reflexivity].
  - rewrite (proj2 (registered_schema provider adapter (with_param tool n p) H)).
    simpl. rewrite required_names_app. unfold required_names at 2. simpl.
    now destruct (truthy_bool (required p)).
Qed.

Lemma appending_a_parameter_witness :
  In ("mistral", Mistral.mistralAdapter) adapters /\
  NoDup (map fst (params weather_tool)) /\
  ~ In "limit" (map fst (params weather_tool)) /\
  "limit" <> "__proto__" /\
  starts_with_digit "limit" = false /\
  exists props names,
    output_properties "mistral" (Mistral.mistralAdapter weather_tool)
    = Some (JObj props) /\
    output_required "mistral" (Mistral.mistralAdapter weather_tool)
    = Some (JArr (map JStr names)) /\
    output_properties "mistral"
      (Mistral.mistralAdapter (with_param weather_tool "limit" limit_param))
    = Some (JObj (props ++ [("limit", convertParam_of "mistral" limit_param)])) /\
    output_required "mistral"
      (Mistral.mistralAdapter (with_param weather_tool "limit" limit_param))
    = Some (JArr (map JStr
                    (names ++ if truthy_bool (required limit_param)
                              then ["limit"] else []))).
Proof.
  assert (H : In ("mistral", Mistral.mistralAdapter) adapters) by (simpl; tauto).
  assert (Hnd : NoDup (map fst (params weather_tool))).
  { simpl. repeat constructor; simpl; intuition discriminate. }
  assert (Hfresh : ~ In "limit" (map fst (params weather_tool))).
  { simpl. intuition discriminate. }
  assert (Hn : "limit" <> "__proto__") by discriminate.
  assert (Hd : starts_with_digit "limit" = false) by reflexivity.
  split; [exact H|]. split; [exact Hnd|]. split; [exact Hfresh|].
  split; [exact Hn|]. split; [exact Hd|].
  exact (appending_a_parameter
           "mistral" Mistral.mistralAdapter weather_tool "limit" limit_param
           H Hnd Hfresh Hn Hd).
Defined.

(* ================================================================= *)
(** ** The envelopes, for every tool *)

(** X5.  Under every registered provider the tool's [name] and
    [description] reach the output unchanged, under [.function] for OpenAI
    and Mistral and at the top level for Anthropic and Gemini. *)
Theorem name_and_description_pass_through
        (provider : string) (adapter : UniversalTool -> Json) (tool : UniversalTool) :
  In (provider, adapter) adapters ->
  path (envelope_path provider ++ ["name"]) (adapter tool)
  = Some (JStr (name tool)) /\
  path (envelope_path provider ++ ["description"]) (adapter tool)
  = Some (JStr (tool_description tool)).
Proof.
  intros H. by_provider H.
  - unfold OpenAI.openaiAdapter.
    destruct (fold_left _ _ _) as [ps rs]. split; reflexivity.
  - unfold Anthropic.anthropicAdapter.
    destruct (fold_left _ _ _) as [ps rs]. split; reflexivity.
  - unfold Gemini.geminiAdapter.
    destruct (fold_left _ _ _) as [ps rs]. split; reflexivity.
  - unfold Mistral.mistralAdapter.
    destruct (fold_left _ _ _) as [ps rs]. split; reflexivity.
Qed.

Lemma name_and_description_pass_through_witness :
  In ("openai", OpenAI.openaiAdapter) adapters /\
  path ["function"; "name"] (OpenAI.openaiAdapter search_tool)
  = Some (JStr "search") /\
  path ["function"; "description"] (OpenAI.openaiAdapter search_tool)
  = Some (JStr "Search for items").
Proof.
  assert (H : In ("openai", OpenAI.openaiAdapter) adapters) by (simpl; tauto).
  split; [exact H|].
  exact (name_and_description_pass_through
           "openai" OpenAI.openaiAdapter search_tool H).
Defined.

(** X6.  The shape of each envelope is the same for every tool: OpenAI
    and Mistral emit the keys [type], [function] with [type] the string
    ["function"] and [function] holding [name], [description],
    [parameters]; Anthropic emits [name], [description], [input_schema];
    Gemini emits [name], [description], [parameters]; and the schema
    object always has the keys [type], [properties], [required], with
    [type] the string ["object"] for the three lower-case providers and
    ["OBJECT"] for Gemini. *)
Theorem envelope_shape_is_fixed (tool : UniversalTool) :
  (keys (OpenAI.openaiAdapter tool) = ["type"; "function"] /\
   field "type" (OpenAI.openaiAdapter tool) = Some (JStr "function") /\
   option_map keys (path ["function"] (OpenAI.openaiAdapter tool))
   = Some ["name"; "description"; "parameters"] /\
   path ["function"; "parameters"; "type"] (OpenAI.openaiAdapter tool)
   = Some (JStr "object")) /\
  (keys (Mistral.mistralAdapter tool) = ["type"; "function"] /\
   field "type" (Mistral.mistralAdapter tool) = Some (JStr "function") /\
   option_map keys (path ["function"] (Mistral.mistralAdapter tool))
   = Some ["name"; "description"; "parameters"] /\
   path ["function"; "parameters"; "type"] (Mistral.mistralAdapter tool)
   = Some (JStr "object")) /\
  (keys (Anthropic.anthropicAdapter tool)
   = ["name"; "description"; "input_schema"] /\
   path ["input_schema"; "type"] (Anthropic.anthropicAdapter tool)
   = Some (JStr "object")) /\
  (keys (Gemini.geminiAdapter tool) = ["name"; "description"; "parameters"] /\
   path ["parameters"; "type"] (Gemini.geminiAdapter tool)
   = Some (JStr "OBJECT")) /\
  option_map keys (path (schema_path "openai") (OpenAI.openaiAdapter tool))
  = Some ["type"; "properties"; "required"] /\
  option_map keys (path (schema_path "mistral") (Mistral.mistralAdapter tool))
  = Some ["type"; "properties"; "required"] /\
  option_map keys (path (schema_path "anthropic") (Anthropic.anthropicAdapter tool))
  = Some ["type"; "properties"; "required"] /\
  option_map keys (path (schema_path "gemini") (Gemini.geminiAdapter tool))
  = Some ["type"; "properties"; "required"].
Proof.
  unfold OpenAI.openaiAdapter, Mistral.mistralAdapter,
    Anthropic.anthropicAdapter, Gemini.geminiAdapter.
  repeat split; destruct (fold_left _ _ _) as [ps rs]; reflexivity.
Qed.

Lemma OpenAI_Anthropic_convertParam (param : ToolParam) :
  OpenAI.convertParam param = Anthropic.convertParam param.
Proof.
  unfold OpenAI.convertParam, Anthropic.convertParam.
  destruct (truthy_string (description param)), (truthy_ref (enum param)),
    (defined (default param)), (is_array (type param)), (items param);
    reflexivity.
Qed.

(** X7.  OpenAI and Anthropic wrap one and the same schema object: what
    OpenAI emits under [.function.parameters] equals what Anthropic emits
    under [.input_schema], for every tool. *)
Theorem openai_anthropic_same_schema (tool : UniversalTool) :
  exists schema,
    path ["function"; "parameters"] (OpenAI.openaiAdapter tool) = Some schema /\
    path ["input_schema"] (Anthropic.anthropicAdapter tool) = Some schema.
Proof.
  unfold OpenAI.openaiAdapter, Anthropic.anthropicAdapter.
  rewrite OpenAI_loop, Anthropic_loop.
  rewrite (fold_left_pointwise
             (generic_loop_body OpenAI.convertParam)
             (generic_loop_body Anthropic.convertParam)).
  - destruct (fold_left _ _ _) as [ps rs]. eexists. split; reflexivity.
  - intros acc entry. unfold generic_loop_body.
    now rewrite OpenAI_Anthropic_convertParam.
Qed.

(** X8.  The Gemini output differs from the Anthropic one in its type
    tags only: for every tool the [required] arrays are equal and the
    [properties] have the same keys in the same order, and for every
    parameter the two descriptors have the same keys and equal
    [description], [enum] and [default]. *)
Theorem gemini_anthropic_differ_in_tags_only :
  (forall tool,
     output_required "gemini" (Gemini.geminiAdapter tool)
     = output_required "anthropic" (Anthropic.anthropicAdapter tool) /\
     option_map keys (output_properties "gemini" (Gemini.geminiAdapter tool))
     = option_map keys
         (output_properties "anthropic" (Anthropic.anthropicAdapter tool))) /\
  (forall param,
     keys (Gemini.convertParam param) = keys (Anthropic.convertParam param) /\
     field "description" (Gemini.convertParam param)
     = field "description" (Anthropic.convertParam param) /\
     field "enum" (Gemini.convertParam param)
     = field "enum" (Anthropic.convertParam param) /\
     field "default" (Gemini.convertParam param)
     = field "default" (Anthropic.convertParam param)).
Proof.
  split.
  - intros tool.
    destruct (Gemini_schema tool) as [Hgp Hgr].
    destruct (Anthropic_schema tool) as [Hap Har].
    rewrite Hgp, Hgr, Hap, Har. split; [reflexivity|].
    simpl. f_equal. unfold generic_loop. now apply loop_keys.
  - intros param. repeat split; by_param_shape param.
Qed.

(** X9.  In every adapter the keys of a descriptor are [type] followed
    by those of [description], [enum], [default], [items] whose guard
    holds, in this order, and nothing else: [required] and the nested
    [properties] never appear in a descriptor. *)
Theorem descriptor_keys :
  let expected param :=
    "type"
    :: (if truthy_string (description param) then ["description"] else [])
    ++ (if truthy_ref (enum param) then ["enum"] else [])
    ++ (if defined (default param) then ["default"] else [])
    ++ (if is_array (type param) && defined (items param) then ["items"] else [])
  in
  (forall param, keys (OpenAI.convertParam param) = expected param) /\
  (forall param, keys (Anthropic.convertParam param) = expected param) /\
  (forall param, keys (Gemini.convertParam param) = expected param) /\
  (forall param, keys (Mistral.convertParam param) = expected param).
Proof.
  repeat split; intros param; by_param_shape param.
Qed.

(** X10.  In the three lower-case adapters the descriptor's [type] is
    the parameter's type literal, [enum] is the supplied array with its
    order and repetitions (an empty array included), and [description] is
    the supplied text unless that is empty, in which case the key is left
    out. *)
Theorem lowercase_descriptor_fields :
  let spec (convertParam : ToolParam -> Json) :=
    forall param,
      field "type" (convertParam param)
      = Some (JStr (ParamType_str (type param))) /\
      field "enum" (convertParam param)
      = option_map (fun vs => JArr (map JStr vs)) (enum param) /\
      field "description" (convertParam param)
      = match description param with
        | Some "" => None
        | Some d => Some (JStr d)
        | None => None
        end in
  spec OpenAI.convertParam /\ spec Anthropic.convertParam /\
  spec Mistral.convertParam.
Proof.
  repeat split; by_param_shape param.
Qed.

(* ================================================================= *)
(** ** The dispatcher, for every provider string *)

Lemma adapt_unfold (tool : UniversalTool) (provider : string) :
  adapt tool provider
  = match adapters_get provider with
    | None => ([Lookup provider], inl (Error (unknown_provider_message provider)))
    | Some (Callable f) => ([Lookup provider; Call], f tool)
    | Some NotCallable => ([Lookup provider], inl TypeError)
    end.
Proof.
  unfold adapt. simpl. now destruct (adapters_get provider) as [[f|]|].
Qed.

(** What [adapters[provider]] can be: nothing, the uncallable prototype
    object, a function that always fails with a [TypeError], or a function
    that always returns. *)
Lemma adapters_get_cases (provider : string) :
  adapters_get provider = None \/
  adapters_get provider = Some NotCallable \/
  exists f,
    adapters_get provider = Some (Callable f) /\
    ((forall tool, f tool = inl TypeError) \/
     (forall tool, exists v, f tool = inr v)).
Proof.
  unfold adapters_get, adapters, Object_prototype. cbn [assoc].
  repeat (destruct (String.eqb _ provider);
          [solve [ right; right; eexists; split;
                   [reflexivity | first [ left; intros; reflexivity
                                        | right; intros; eexists; reflexivity ]]
                 | right; left; reflexivity ] |]).
  now left.
Qed.

(** Whether [adapt] throws, and what, depends on the provider alone. *)
Lemma adapt_outcome_uniform (provider : string) :
  (exists e, forall tool, outcome (adapt tool provider) = inl e) \/
  (forall tool, exists v, outcome (adapt tool provider) = inr v).
Proof.
  destruct (adapters_get_cases provider) as [H|[H|[f [H [Hf|Hf]]]]].
  - left. eexists. intros tool. rewrite adapt_unfold, H. reflexivity.
  - left. eexists. intros tool. rewrite adapt_unfold, H. reflexivity.
  - left. exists TypeError. intros tool. rewrite adapt_unfold, H. apply Hf.
  - right. intros tool. rewrite adapt_unfold, H. apply Hf.
Qed.

Lemma array_map_length {A B : Type} (f : A -> Eff B) (l : list A)
      (ys : list B) :
  outcome (array_map f l) = inr ys -> length ys = length l.
Proof.
  revert ys. unfold outcome.
  induction l as [|x rest IH]; intros ys H; simpl in H.
  - inversion H. reflexivity.
  - unfold bind, ret in H.
    destruct (f x) as [lx [ex|y]]; simpl in H; [discriminate|].
    destruct (array_map f rest) as [lr [er|ys']]; simpl in *; [discriminate|].
    inversion H. simpl. now rewrite (IH ys').
Qed.

Lemma array_map_all_return {A B : Type} (f : A -> Eff B) (l : list A) :
  (forall x, exists y, outcome (f x) = inr y) ->
  exists ys, outcome (array_map f l) = inr ys.
Proof.
  intros Hf. unfold outcome in *.
  induction l as [|x rest [ys IH]]; simpl.
  - now exists [].
  - destruct (Hf x) as [y Hy]. unfold bind, ret.
    destruct (f x) as [lx [ex|y']]; simpl in Hy; [discriminate|].
    destruct (array_map f rest) as [lr [er|ys']]; simpl in *; [discriminate|].
    eexists. reflexivity.
Qed.

Lemma array_map_first_outcome {A B : Type} (f : A -> Eff B) (x : A)
      (rest : list A) (e : JsError) :
  outcome (f x) = inl e -> outcome (array_map f (x :: rest)) = inl e.
Proof.
  unfold outcome. intros H. simpl. unfold bind.
  destruct (f x) as [lx [ex|y]]; simpl in *; congruence.
Qed.

(** X11.  Whatever the provider string, a batch call that returns has
    produced one result per tool: the result never is shorter or longer
    than the input. *)
Theorem adaptAll_returns_one_result_per_tool
        (tools : list UniversalTool) (provider : string) (results : list Value) :
  outcome (adaptAll tools provider) = inr results ->
  length results = length tools.
Proof.
  unfold adaptAll. apply array_map_length.
Qed.

Lemma adaptAll_returns_one_result_per_tool_witness :
  outcome (adaptAll [weather_tool; search_tool] "anthropic")
  = inr [VJson (Anthropic.anthropicAdapter weather_tool);
         VJson (Anthropic.anthropicAdapter search_tool)] /\
  length [VJson (Anthropic.anthropicAdapter weather_tool);
          VJson (Anthropic.anthropicAdapter search_tool)]
  = length [weather_tool; search_tool].
Proof.
  assert (H : outcome (adaptAll [weather_tool; search_tool] "anthropic")
              = inr [VJson (Anthropic.anthropicAdapter weather_tool);
                     VJson (Anthropic.anthropicAdapter search_tool)])
    by reflexivity.
  split; [exact H|].
  exact (adaptAll_returns_one_result_per_tool
           [weather_tool; search_tool] "anthropic" _ H).
Defined.

(** X12.  On a registered provider the batch call returns, in input
    order, the adapter's output for each tool, and it reads the registry
    and calls the adapter once per tool: the lookup is not hoisted out of
    the traversal. *)
Theorem adaptAll_converts_each_tool_in_order
        (provider : string) (adapter : UniversalTool -> Json)
        (tools : list UniversalTool) :
  In (provider, adapter) adapters ->
  outcome (adaptAll tools provider)
  = inr (map (fun tool => VJson (adapter tool)) tools) /\
  lookups (adaptAll tools provider) = length tools /\
  calls (adaptAll tools provider) = length tools.
Proof.
  intros H. unfold outcome, lookups, calls, log_of.
  rewrite (adaptAll_registered_run _ _ tools H). simpl.
  split; [reflexivity|].
  split; induction tools as [|tool rest IH]; simpl; auto.
Qed.

Lemma adaptAll_converts_each_tool_in_order_witness :
  In ("gemini", Gemini.geminiAdapter) adapters /\
  outcome (adaptAll [weather_tool; ping_tool; search_tool] "gemini")
  = inr [VJson (Gemini.geminiAdapter weather_tool);
         VJson (Gemini.geminiAdapter ping_tool);
         VJson (Gemini.geminiAdapter search_tool)] /\
  lookups (adaptAll [weather_tool; ping_tool; search_tool] "gemini") = 3 /\
  calls (adaptAll [weather_tool; ping_tool; search_tool] "gemini") = 3.
Proof.
  assert (H : In ("gemini", Gemini.geminiAdapter) adapters) by (simpl; tauto).
  split; [exact H|].
  exact (adaptAll_converts_each_tool_in_order
           "gemini" Gemini.geminiAdapter
           [weather_tool; ping_tool; search_tool] H).
Defined.

(** X13.  A batch over a concatenation is the batch over the first part
    followed by the batch over the second: the steps are logged in that
    order, an exception in the first part ends the call before the second
    is touched, and on success the results are concatenated. *)
Theorem adaptAll_app (l1 l2 : list UniversalTool) (provider : string) :
  adaptAll (l1 ++ l2) provider
  = (r1 <- adaptAll l1 provider ;;
     r2 <- adaptAll l2 provider ;;
     ret (r1 ++ r2)).
Proof.
  unfold adaptAll.
  induction l1 as [|tool rest IH]; simpl.
  - destruct (array_map _ l2) as [log [e|ys]]; unfold bind, ret; simpl;
      now rewrite ?app_nil_r.
  - rewrite IH. unfold bind, ret.
    destruct (adapt tool provider) as [l0 [e0|y0]]; [reflexivity|].
    destruct (array_map _ rest) as [lr [er|yr]]; simpl; [reflexivity|].
    destruct (array_map _ l2) as [lt [et|yt]]; simpl;
      now rewrite ?app_nil_r, ?app_assoc.
Qed.

(** X14.  A batch call throws exactly when its first [adapt] does, and
    then with the same exception: whether [adapt] throws depends on the
    provider and not on the tool, so no later element can fail once the
    first has been converted. *)
Theorem adaptAll_throws_iff_first_adapt_throws
        (tool : UniversalTool) (rest : list UniversalTool) (provider : string)
        (e : JsError) :
  outcome (adaptAll (tool :: rest) provider) = inl e <->
  outcome (adapt tool provider) = inl e.
Proof.
  unfold adaptAll. split.
  - intros Hall.
    destruct (adapt_outcome_uniform provider) as [[e0 He0]|Hret].
    + rewrite (array_map_first_outcome _ tool rest e0 (He0 tool)) in Hall.
      rewrite He0. inversion Hall. reflexivity.
    + destruct (array_map_all_return
                  (fun t => adapt t provider) (tool :: rest) Hret) as [ys Hys].
      congruence.
  - exact (array_map_first_outcome (fun t => adapt t provider) tool rest e).
Qed.

(** X15.  [adapt] raises the unknown-provider error exactly for the
    strings that name neither a registered provider nor a property
    inherited from [Object.prototype]. *)
Theorem adapt_unknown_provider_error_iff (tool : UniversalTool) (provider : string) :
  outcome (adapt tool provider) = inl (Error (unknown_provider_message provider))
  <->
  ~ In provider getProviders /\ ~ In provider (map fst Object_prototype).
Proof.
  rewrite <- adapters_get_None, adapt_unfold. unfold outcome.
  destruct (adapters_get_cases provider) as [H|[H|[f [H [Hf|Hf]]]]];
    rewrite H; simpl.
  - tauto.
  - split; discriminate.
  - rewrite Hf. split; discriminate.
  - destruct (Hf tool) as [v Hv]. rewrite Hv. split; discriminate.
Qed.

(** X16.  The upper-cased tag Gemini emits determines the parameter
    type: two types with the same Gemini tag are the same type. *)
Theorem gemini_tag_determines_type (a b : ParamType) :
  Gemini.toGeminiType (ParamType_str a) = Gemini.toGeminiType (ParamType_str b) ->
  a = b.
Proof.
  destruct a, b; intros H; try reflexivity; discriminate H.
Qed.

Lemma gemini_tag_determines_type_witness :
  Gemini.toGeminiType (ParamType_str TArray)
  = Gemini.toGeminiType (ParamType_str TArray) /\
  TArray = TArray.
Proof.
  split; [reflexivity|].
  exact (gemini_tag_determines_type TArray TArray eq_refl).
Defined.

(** X17.  Every name [getProviders] lists is accepted by [adapt]: the
    call reads the registry once, calls the adapter registered under that
    name once and returns its output. *)
Theorem listed_providers_are_accepted (tool : UniversalTool) (provider : string) :
  In provider getProviders ->
  exists adapter,
    In (provider, adapter) adapters /\
    adapt tool provider = ([Lookup provider; Call], inr (VJson (adapter tool))).
Proof.
  unfold getProviders. rewrite in_map_iff.
  intros [[p adapter] [Hp Hin]]. simpl in Hp. subst p.
  exists adapter. split; [assumption|]. now apply adapt_registered.
Qed.

Lemma listed_providers_are_accepted_witness :
  In "mistral" getProviders /\
  exists adapter,
    In ("mistral", adapter) adapters /\
    adapt search_tool "mistral"
    = ([Lookup "mistral"; Call], inr (VJson (adapter search_tool))).
Proof.
  assert (H : In "mistral" getProviders) by (simpl; tauto).
  split; [exact H|].
  exact (listed_providers_are_accepted search_tool "mistral" H).
Defined.

(* ================================================================= *)
(** ** Falsy optional fields *)

Section MappedParams.

Variable convertParam : ToolParam -> Json.
Variable g : ToolParam -> ToolParam.
Hypothesis convertParam_g : forall p, convertParam (g p) = convertParam p.
Hypothesis required_g :
  forall p, truthy_bool (required (g p)) = truthy_bool (required p).

Lemma loop_mapped_params (entries : list (string * ToolParam)) (acc : Acc) :
  fold_left (generic_loop_body convertParam)
    (map (fun e => (fst e, g (snd e))) entries) acc
  = fold_left (generic_loop_body convertParam) entries acc.
Proof.
  revert acc.
  induction entries as [|[n p] rest IH]; intros acc; simpl; [reflexivity|].
  rewrite IH. unfold generic_loop_body. simpl.
  now rewrite convertParam_g, required_g.
Qed.

End MappedParams.

Lemma drop_falsy_required (p : ToolParam) :
  truthy_bool (required (drop_falsy p)) = truthy_bool (required p).
Proof. destruct p as [t d [[|]|] df e it np]; reflexivity. Qed.

Lemma OpenAI_drop_falsy (p : ToolParam) :
  OpenAI.convertParam (drop_falsy p) = OpenAI.convertParam p.
Proof. destruct p as [t [[|c d]|] r df e it np]; reflexivity. Qed.

Lemma Anthropic_drop_falsy (p : ToolParam) :
  Anthropic.convertParam (drop_falsy p) = Anthropic.convertParam p.
Proof. destruct p as [t [[|c d]|] r df e it np]; reflexivity. Qed.

Lemma Gemini_drop_falsy (p : ToolParam) :
  Gemini.convertParam (drop_falsy p) = Gemini.convertParam p.
Proof. destruct p as [t [[|c d]|] r df e it np]; reflexivity. Qed.

Lemma Mistral_drop_falsy (p : ToolParam) :
  Mistral.convertParam (drop_falsy p) = Mistral.convertParam p.
Proof. destruct p as [t [[|c d]|] r df e it np]; reflexivity. Qed.

(** X18.  For every registered adapter an empty [description] and a
    [required] of [false] on a parameter are the same as leaving the field
    out: removing them from every parameter of a tool does not change the
    output. *)
Theorem falsy_description_and_required_are_as_absent
        (provider : string) (adapter : UniversalTool -> Json) (tool : UniversalTool) :
  In (provider, adapter) adapters ->
  adapter (drop_falsy_tool tool) = adapter tool.
Proof.
  intros H. by_provider H.
  - unfold OpenAI.openaiAdapter. simpl. rewrite !OpenAI_loop.
    now rewrite (loop_mapped_params _ _ OpenAI_drop_falsy drop_falsy_required).
  - unfold Anthropic.anthropicAdapter. simpl. rewrite !Anthropic_loop.
    now rewrite (loop_mapped_params _ _ Anthropic_drop_falsy drop_falsy_required).
  - unfold Gemini.geminiAdapter. simpl. rewrite !Gemini_loop.
    now rewrite (loop_mapped_params _ _ Gemini_drop_falsy drop_falsy_required).
  - unfold Mistral.mistralAdapter. simpl. rewrite !Mistral_loop.
    now rewrite (loop_mapped_params _ _ Mistral_drop_falsy drop_falsy_required).
Qed.

Lemma falsy_description_and_required_are_as_absent_witness :
  In ("anthropic", Anthropic.anthropicAdapter) adapters /\
  drop_falsy_tool search_tool <> search_tool /\
  Anthropic.anthropicAdapter (drop_falsy_tool search_tool)
  = Anthropic.anthropicAdapter search_tool.
Proof.
  assert (H : In ("anthropic", Anthropic.anthropicAdapter) adapters)
    by (simpl; tauto).
  split; [exact H|]. split; [discriminate|].
  exact (falsy_description_and_required_are_as_absent
           "anthropic" Anthropic.anthropicAdapter search_tool H).
Defined.

(* ================================================================= *)
(** ** Descriptors as the adapters emit them *)

Lemma path_app (l1 l2 : list string) (j : Json) :
  path (l1 ++ l2) j
  = match path l1 j with
    | Some v => path l2 v
    | None => None
    end.
Proof.
  revert j. induction l1 as [|k l1 IH]; intros j; simpl.
  - reflexivity.
  - destruct (field k j); [apply IH | reflexivity].
Qed.

(** The descriptor an adapter's output holds under a parameter name is
    what its loop left under that key. *)
Lemma registered_property (provider : string) (adapter : UniversalTool -> Json)
      (tool : UniversalTool) (n : string) :
  In (provider, adapter) adapters ->
  output_property provider n (adapter tool)
  = obj_get n (fst (generic_loop (convertParam_of provider) (params tool))).
Proof.
  intros H. unfold output_property.
  change (schema_path provider ++ ["properties"; n])
    with (schema_path provider ++ ["properties"] ++ [n]).
  rewrite app_assoc, path_app.
  fold (output_properties provider (adapter tool)).
  rewrite (proj1 (registered_schema provider adapter tool H)). simpl.
  now destruct (obj_get n _).
Qed.

(** Whatever the loop leaves under a key was there before or is the
    descriptor of an entry with that name. *)
Lemma loop_properties_sound (cp : ToolParam -> Json)
      (entries : list (string * ToolParam)) (acc : Acc) (k : string) (d : Json) :
  obj_get k (fst (fold_left (generic_loop_body cp) entries acc)) = Some d ->
  obj_get k (fst acc) = Some d \/ exists p, In (k, p) entries /\ d = cp p.
Proof.
  revert acc.
  induction entries as [|[n p] rest IH]; intros acc H; simpl in H.
  - now left.
  - apply IH in H. destruct H as [H|[q [Hin Hq]]].
    + unfold generic_loop_body in H. simpl in H.
      destruct (string_dec k n) as [->|Hne].
      * destruct (String.eqb_spec n "__proto__") as [Hp|Hp].
        -- left. unfold obj_set in H. rewrite Hp in H. simpl in H.
           now rewrite Hp.
        -- rewrite obj_get_set_same in H by assumption.
           right. exists p. split; [now left | congruence].
      * rewrite obj_get_set_other in H by assumption. now left.
    + right. exists q. split; [now right | assumption].
Qed.

(** Every descriptor in an adapter's output is the conversion of a
    declared parameter of that name. *)
Lemma registered_descriptor_sound
      (provider : string) (adapter : UniversalTool -> Json)
      (tool : UniversalTool) (n : string) (d : Json) :
  In (provider, adapter) adapters ->
  output_property provider n (adapter tool) = Some d ->
  exists p, In (n, p) (params tool) /\ d = convertParam_of provider p.
Proof.
  intros H Hd. rewrite (registered_property _ _ _ _ H) in Hd.
  apply loop_properties_sound in Hd. destruct Hd as [Hd|Hd]; [discriminate|].
  exact Hd.
Qed.

(** Every declared parameter of a record, other than [__proto__], has
    its conversion in the adapter's output under its name. *)
Lemma registered_descriptor
      (provider : string) (adapter : UniversalTool -> Json)
      (tool : UniversalTool) (n : string) (p : ToolParam) :
  In (provider, adapter) adapters ->
  NoDup (map fst (params tool)) ->
  In (n, p) (params tool) ->
  n <> "__proto__" ->
  output_property provider n (adapter tool) = Some (convertParam_of provider p).
Proof.
  intros H Hnd Hin Hn. rewrite (registered_property _ _ _ _ H).
  unfold generic_loop. now apply loop_properties_get.
Qed.

(** A parameter named [__proto__] has no descriptor in any output. *)
Lemma registered_descriptor_proto
      (provider : string) (adapter : UniversalTool -> Json) (tool : UniversalTool) :
  In (provider, adapter) adapters ->
  output_property provider "__proto__" (adapter tool) = None.
Proof.
  intros H. rewrite (registered_property _ _ _ _ H).
  unfold generic_loop. now rewrite loop_properties_proto.
Qed.

(** C4.  In the output of the Gemini adapter every structural type tag
    is the upper-cased kind: the container's is the constant ["OBJECT"],
    and every descriptor found under [parameters.properties] belongs to a
    declared parameter of that name and carries that parameter's
    upper-cased [type], its upper-cased item [type], and its [enum] values
    and [description] exactly as supplied.  Conversely every parameter
    declared in a record under a name other than [__proto__] has such a
    descriptor in the output.  The parameter
    [{ type: 'array', items: { type: 'string' } }] is emitted as
    [{ type: "ARRAY", items: { type: "STRING" } }] by Gemini and as
    [{ type: "array", items: { type: "string" } }] by the other three
    adapters, and the enum value ["celsius"] stays in lower case under
    Gemini. *)
Theorem gemini_upper_cases_type_tags_only :
  let tags_ok (param : ToolParam) (d : Json) :=
    field "type" d = Some (JStr (toUpperCase (ParamType_str (type param)))) /\
    field "items" d
    = (if is_array (type param)
       then option_map
              (fun it => JObj [("type", JStr (toUpperCase (ParamType_str it)))])
              (items param)
       else None) /\
    field "enum" d = option_map (fun vs => JArr (map JStr vs)) (enum param) /\
    field "description" d
    = (if truthy_string (description param)
       then option_map JStr (description param)
       else None) in
  (forall tool,
     path ["parameters"; "type"] (Gemini.geminiAdapter tool)
     = Some (JStr "OBJECT")) /\
  (forall tool n d,
     output_property "gemini" n (Gemini.geminiAdapter tool) = Some d ->
     exists param, In (n, param) (params tool) /\ tags_ok param d) /\
  (forall tool n param,
     NoDup (map fst (params tool)) ->
     In (n, param) (params tool) ->
     n <> "__proto__" ->
     exists d,
       output_property "gemini" n (Gemini.geminiAdapter tool) = Some d /\
       tags_ok param d) /\
  (forall kind,
     toUpperCase (ParamType_str kind)
     = match kind with
       | TString => "STRING"
       | TNumber => "NUMBER"
       | TBoolean => "BOOLEAN"
       | TArray => "ARRAY"
       | TObject => "OBJECT"
       end) /\
  output_property "gemini" "tags" (Gemini.geminiAdapter search_tool)
  = Some (JObj [("type", JStr "ARRAY"); ("items", JObj [("type", JStr "STRING")])]) /\
  output_property "openai" "tags" (OpenAI.openaiAdapter search_tool)
  = Some (JObj [("type", JStr "array"); ("items", JObj [("type", JStr "string")])]) /\
  output_property "anthropic" "tags" (Anthropic.anthropicAdapter search_tool)
  = Some (JObj [("type", JStr "array"); ("items", JObj [("type", JStr "string")])]) /\
  output_property "mistral" "tags" (Mistral.mistralAdapter search_tool)
  = Some (JObj [("type", JStr "array"); ("items", JObj [("type", JStr "string")])]) /\
  output_property "gemini" "units" (Gemini.geminiAdapter units_tool)
  = Some (JObj [("type", JStr "STRING");
                ("description", JStr "Unit");
                ("enum", JArr [JStr "celsius"; JStr "Fahrenheit"])]).
Proof.
  assert (Hreg : In ("gemini", Gemini.geminiAdapter) adapters) by (simpl; tauto).
  destruct Gemini_convertParam_tags
    as (Hcontainer & Htype & Hitems & Hupper & Henum & Hdesc & _).
  cbv zeta.
  split; [exact Hcontainer|].
  split.
  { intros tool n d Hd.
    destruct (registered_descriptor_sound _ _ _ _ _ Hreg Hd) as [param [Hin ->]].
    exists param. split; [exact Hin|].
    change (convertParam_of "gemini" param) with (Gemini.convertParam param).
    now rewrite Htype, Hitems, Henum, Hdesc. }
  split.
  { intros tool n param Hnd Hin Hn.
    exists (Gemini.convertParam param). split.
    - exact (registered_descriptor _ _ _ _ _ Hreg Hnd Hin Hn).
    - now rewrite Htype, Hitems, Henum, Hdesc. }
  split; [exact Hupper|].
  repeat split; reflexivity.
Qed.

Lemma gemini_upper_cases_type_tags_only_witness :
  NoDup (map fst (params search_tool)) /\
  In ("tags", string_array_param) (params search_tool) /\
  "tags" <> "__proto__" /\
  exists d,
    output_property "gemini" "tags" (Gemini.geminiAdapter search_tool) = Some d /\
    field "type" d = Some (JStr "ARRAY") /\
    field "items" d = Some (JObj [("type", JStr "STRING")]).
Proof.
  assert (Hnd : NoDup (map fst (params search_tool))).
  { simpl. repeat constructor; simpl; intuition discriminate. }
  assert (Hin : In ("tags", string_array_param) (params search_tool))
    by (simpl; tauto).
  assert (Hn : "tags" <> "__proto__") by discriminate.
  split; [exact Hnd|]. split; [exact Hin|]. split; [exact Hn|].
  destruct (proj1 (proj2 (proj2 gemini_upper_cases_type_tags_only))
              search_tool "tags" string_array_param Hnd Hin Hn)
    as [d [Hd [Ht [Hi _]]]].
  exists d. split; [exact Hd|]. split; [exact Ht | exact Hi].
Defined.

(** Under every registered provider, a parameter declared in a record
    under a name other than [__proto__] has a descriptor in the output
    whose [default] key holds exactly the supplied default, and no
    [default] key when none was supplied. *)
Lemma default_emitted_for_declared
      (provider : string) (adapter : UniversalTool -> Json)
      (tool : UniversalTool) (n : string) (p : ToolParam) :
  In (provider, adapter) adapters ->
  NoDup (map fst (params tool)) ->
  In (n, p) (params tool) ->
  n <> "__proto__" ->
  exists d,
    output_property provider n (adapter tool) = Some d /\
    field "default" d = default p.
Proof.
  intros H Hnd Hin Hn.
  exists (convertParam_of provider p).
  split; [now apply registered_descriptor|].
  destruct default_copied_when_supplied as (Ho & Ha & Hg & Hm & _).
  by_provider H; [apply Ho | apply Ha | apply Hg | apply Hm].
Qed.

(** C7, at the failing input.  The record declares the same parameter
    [{ type: 'number', default: 0 }] twice, as [__proto__] and as [step].
    Under all four adapters [step] is emitted with its falsy default, but
    [__proto__] has no descriptor at all, so its supplied default is not
    emitted: the assignment [properties["__proto__"] = ...] defines no
    key. *)
Theorem proto_param_default_not_emitted :
  In ("__proto__", zero_default) (params proto_default_tool) /\
  default zero_default = Some (JNum 0) /\
  (output_property "openai" "__proto__" (OpenAI.openaiAdapter proto_default_tool)
   = None /\
   output_property "openai" "step" (OpenAI.openaiAdapter proto_default_tool)
   = Some (JObj [("type", JStr "number"); ("default", JNum 0)])) /\
  (output_property "anthropic" "__proto__"
     (Anthropic.anthropicAdapter proto_default_tool) = None /\
   output_property "anthropic" "step"
     (Anthropic.anthropicAdapter proto_default_tool)
   = Some (JObj [("type", JStr "number"); ("default", JNum 0)])) /\
  (output_property "gemini" "__proto__" (Gemini.geminiAdapter proto_default_tool)
   = None /\
   output_property "gemini" "step" (Gemini.geminiAdapter proto_default_tool)
   = Some (JObj [("type", JStr "NUMBER"); ("default", JNum 0)])) /\
  (output_property "mistral" "__proto__"
     (Mistral.mistralAdapter proto_default_tool) = None /\
   output_property "mistral" "step" (Mistral.mistralAdapter proto_default_tool)
   = Some (JObj [("type", JStr "number"); ("default", JNum 0)])).
Proof.
  split; [left; reflexivity|].
  repeat split; reflexivity.
Qed.

(** Under every registered provider, a parameter declared in a record
    under a name other than [__proto__] has a descriptor in the output
    with an [items] key exactly when its type is [array] and [items] is
    supplied. *)
Lemma items_emitted_for_declared
      (provider : string) (adapter : UniversalTool -> Json)
      (tool : UniversalTool) (n : string) (p : ToolParam) :
  In (provider, adapter) adapters ->
  NoDup (map fst (params tool)) ->
  In (n, p) (params tool) ->
  n <> "__proto__" ->
  exists d,
    output_property provider n (adapter tool) = Some d /\
    has_field "items" d = is_array (type p) && defined (items p).
Proof.
  intros H Hnd Hin Hn.
  exists (convertParam_of provider p).
  split; [now apply registered_descriptor|].
  destruct items_only_for_arrays_with_items as (Ho & Ha & Hg & Hm & _).
  by_provider H; [apply Ho | apply Ha | apply Hg | apply Hm].
Qed.

(** C10, at the failing input.  The record declares the same parameter
    [{ type: 'array', items: { type: 'string' } }] twice, as [__proto__]
    and as [tags].  Under all four adapters [tags] is emitted with its
    [items], but [__proto__], an array with [items] supplied, has no
    descriptor and so no [items] field in the output: the assignment
    [properties["__proto__"] = ...] defines no key. *)
Theorem proto_param_items_not_emitted :
  In ("__proto__", string_array_param) (params proto_items_tool) /\
  is_array (type string_array_param) && defined (items string_array_param) = true /\
  (output_property "openai" "__proto__" (OpenAI.openaiAdapter proto_items_tool)
   = None /\
   option_map (has_field "items")
     (output_property "openai" "tags" (OpenAI.openaiAdapter proto_items_tool))
   = Some true) /\
  (output_property "anthropic" "__proto__"
     (Anthropic.anthropicAdapter proto_items_tool) = None /\
   option_map (has_field "items")
     (output_property "anthropic" "tags"
        (Anthropic.anthropicAdapter proto_items_tool))
   = Some true) /\
  (output_property "gemini" "__proto__" (Gemini.geminiAdapter proto_items_tool)
   = None /\
   option_map (has_field "items")
     (output_property "gemini" "tags" (Gemini.geminiAdapter proto_items_tool))
   = Some true) /\
  (output_property "mistral" "__proto__"
     (Mistral.mistralAdapter proto_items_tool) = None /\
   option_map (has_field "items")
     (output_property "mistral" "tags" (Mistral.mistralAdapter proto_items_tool))
   = Some true).
Proof.
  split; [left; reflexivity|].
  repeat split; reflexivity.
Qed.
